(** * Lenny: the loan-approval core of [flaskapp.py]

    A shallow embedding of [LoanApprovalSystem] (criteria evaluation,
    decision aggregation, explanation generation, application processing)
    together with the fragment of the Python runtime it runs on: JSON
    values, exceptions, [int]/[float] arithmetic, [str] methods and
    [datetime.strptime].

    Conventions of the embedding
    - a Python [str] is a Rocq [string]; every character stands for the
      code point of the same number, so the strings covered are the
      Latin-1 ones;
    - a Python [float] is a [spec_float] read at binary64 (precision 53,
      maximal exponent 1024); the values of interest are the valid ones;
    - an exception is a value of [exn]; code that may raise returns a
      [result];
    - the JSON object of a request is a [gmap string pyval];
    - the clock ([datetime.now()]) and the text-completion client are
      arguments. *)

From stdpp Require Import base option list gmap strings.
From Stdlib Require Import ZArith Ascii Lia SpecFloat.

Local Open Scope string_scope.
Local Open Scope Z_scope.

(** ** Python runtime *)

Module Py.

(** Instances of [Exception] that the program can meet.  [APIError]
    stands for whatever the text-completion client raises (connection
    errors, timeouts, bad statuses), with its message. *)
Inductive exn : Type :=
  | KeyError (key : string)
  | TypeError
  | ValueError
  | ZeroDivisionError
  | OverflowError
  | IndexError
  | AttributeError
  | APIError (msg : string).

(** The outcome of running a piece of code: a value, or a raised
    exception. *)
Inductive result (A : Type) : Type :=
  | Ok (a : A)
  | Raise (e : exn).
Arguments Ok {A} a.
Arguments Raise {A} e.

#[global] Instance result_ret : MRet result := fun A a => Ok a.
#[global] Instance result_bind : MBind result := fun A B f m =>
  match m with
  | Ok a => f a
  | Raise e => Raise e
  end.

(** [try: body except Exception as e: handler e] *)
Definition try_except {A : Type} (body : result A) (handler : exn -> result A)
  : result A :=
  match body with
  | Ok a => Ok a
  | Raise e => handler e
  end.

(** JSON values as Python objects. *)
#[local] Set Warnings "-register-all".
Inductive pyval : Type :=
  | PyNone
  | PyBool (b : bool)
  | PyInt (n : Z)
  | PyFloat (f : spec_float)
  | PyStr (s : string)
  | PyList (l : list pyval)
  | PyDict (d : list (string * pyval)).

(** [d[key]] *)
Definition getitem (d : gmap string pyval) (key : string) : result pyval :=
  match d !! key with
  | Some v => Ok v
  | None => Raise (KeyError key)
  end.

(** [d.get(key, dflt)] *)
Definition get (d : gmap string pyval) (key : string) (dflt : pyval) : pyval :=
  match d !! key with
  | Some v => v
  | None => dflt
  end.

(** [l[i]] for [i >= 0] *)
Definition index {A : Type} (l : list A) (i : nat) : result A :=
  match nth_error l i with
  | Some a => Ok a
  | None => Raise IndexError
  end.

(** [x == s] for a [str] literal [s]: objects of other types are unequal
    to every string. *)
Definition eq_str (x : pyval) (s : string) : bool :=
  match x with
  | PyStr t => String.eqb t s
  | _ => false
  end.

(** [x in l] for a list [l] of [str] literals. *)
Definition in_strs (x : pyval) (l : list string) : bool :=
  existsb (eq_str x) l.

(** An insertion-ordered [dict] with [str] keys, as the program builds
    for the criteria.  [setitem] is [d[key] = value]: an existing key
    keeps its position. *)
Fixpoint setitem {A : Type} (d : list (string * A)) (key : string) (value : A)
  : list (string * A) :=
  match d with
  | [] => [(key, value)]
  | (k, v) :: d' =>
      if String.eqb k key then (k, value) :: d'
      else (k, v) :: setitem d' key value
  end.

(** [d.get(key)], with [None] for a missing key. *)
Fixpoint lookup_item {A : Type} (d : list (string * A)) (key : string) : option A :=
  match d with
  | [] => None
  | (k, v) :: d' => if String.eqb k key then Some v else lookup_item d' key
  end.

(** [d.items()] *)
Definition items {A : Type} (d : list (string * A)) : list (string * A) := d.

End Py.
Export Py.

(** ** Decision aggregation (lines 72-76 of [evaluate_application]) *)

Module Aggregator.

(** [for key, value in criteria_evaluation.items():
       if value: rules_passed += 1]
    started from [rules_passed = 0]. *)
Definition rules_passed (criteria_evaluation : list (string * bool)) : Z :=
  fold_left (fun (passed : Z) (kv : string * bool) =>
               if snd kv then passed + 1 else passed)
            (items criteria_evaluation) 0.

(** ['Approved' if rules_passed >= 8 else 'Declined'] *)
Definition decision_of (passed : Z) : string :=
  if 8 <=? passed then "Approved" else "Declined".

Definition decision (criteria_evaluation : list (string * bool)) : string :=
  decision_of (rules_passed criteria_evaluation).

(** The specification's count: how many entries are true. *)
Definition count_true (criteria_evaluation : list (string * bool)) : nat :=
  length (List.filter (fun kv : string * bool => snd kv) criteria_evaluation).

End Aggregator.
Export Aggregator.

(** ** Numbers: [int], [bool] and [float] *)

Module Num.

Definition prec : Z := 53.
Definition emax : Z := 1024.

(** What an arithmetic operand is once [bool] has been read as [int]. *)
Inductive number : Type :=
  | NInt (n : Z)
  | NFloat (f : spec_float).

Definition as_number (v : pyval) : option number :=
  match v with
  | PyBool b => Some (NInt (Z.b2z b))
  | PyInt n => Some (NInt n)
  | PyFloat f => Some (NFloat f)
  | _ => None
  end.

(** An [int] [n] embedded with all its digits, before any rounding. *)
Definition exact (n : Z) : spec_float :=
  match n with
  | Z0 => S754_zero false
  | Zpos p => S754_finite false p 0
  | Zneg p => S754_finite true p 0
  end.

(** The least magnitude that round-to-nearest-even sends to infinity:
    half an ulp above the largest double. *)
Definition overflow_threshold : Z := 2 ^ 1024 - 2 ^ 970.

(** Conversion of an [int] operand to [float]: correctly rounded, and
    [OverflowError] where the rounded value would not be finite. *)
Definition float_of_int (n : Z) : result spec_float :=
  if overflow_threshold <=? Z.abs n then Raise OverflowError
  else Ok (binary_normalize prec emax n 0 false).

(** [a / b] on [int]s: the correctly rounded quotient. *)
Definition int_truediv (a b : Z) : result spec_float :=
  if b =? 0 then Raise ZeroDivisionError
  else if overflow_threshold * Z.abs b <=? Z.abs a then Raise OverflowError
  else Ok (SFdiv prec emax (exact a) (exact b)).

Definition is_zero (f : spec_float) : bool :=
  match f with
  | S754_zero _ => true
  | _ => false
  end.

(** [x / y] on [float]s: IEEE division, except that a zero divisor
    raises. *)
Definition float_truediv (x y : spec_float) : result spec_float :=
  if is_zero y then Raise ZeroDivisionError
  else Ok (SFdiv prec emax x y).

(** [v / w].  With a [float] on either side the [int] operand is
    converted first, so its [OverflowError] precedes the zero test. *)
Definition truediv (v w : pyval) : result spec_float :=
  match as_number v, as_number w with
  | Some (NInt a), Some (NInt b) => int_truediv a b
  | Some (NInt a), Some (NFloat y) => x ← float_of_int a; float_truediv x y
  | Some (NFloat x), Some (NInt b) => y ← float_of_int b; float_truediv x y
  | Some (NFloat x), Some (NFloat y) => float_truediv x y
  | _, _ => Raise TypeError
  end.

Definition num_mul (x y : number) : result number :=
  match x, y with
  | NInt a, NInt b => Ok (NInt (a * b))
  | NInt a, NFloat g => f ← float_of_int a; Ok (NFloat (SFmul prec emax f g))
  | NFloat f, NInt b => g ← float_of_int b; Ok (NFloat (SFmul prec emax f g))
  | NFloat f, NFloat g => Ok (NFloat (SFmul prec emax f g))
  end.

(** [c * v] for a numeric literal or product [c].  Python repeats a [str]
    or [list] [v] when [c] is an [int]; the program multiplies only by
    [gross_income], after line 55 has divided by it, so [v] is a number
    whenever this is reached. *)
Definition mul (c : number) (v : pyval) : result number :=
  match as_number v with
  | Some y => num_mul c y
  | None => Raise TypeError
  end.

(** Exact comparison of an [int] with a [float]; [None] against NaN. *)
Definition int_float_compare (a : Z) (f : spec_float) : option comparison :=
  match f with
  | S754_nan => None
  | S754_infinity s => Some (if s then Gt else Lt)
  | S754_zero _ => Some (a ?= 0)
  | S754_finite s m e =>
      let v := if s then Zneg m else Zpos m in
      Some (if 0 <=? e then a ?= v * 2 ^ e else a * 2 ^ (- e) ?= v)
  end.

Definition num_compare (x y : number) : option comparison :=
  match x, y with
  | NInt a, NInt b => Some (a ?= b)
  | NInt a, NFloat g => int_float_compare a g
  | NFloat f, NInt b => CompOpp <$> int_float_compare b f
  | NFloat f, NFloat g => SFcompare f g
  end.

(** [v <= c], [v < c] and [v >= c] against a number [c]: [TypeError]
    unless [v] is a number, and false whenever NaN is involved. *)
Definition le (v : pyval) (c : number) : result bool :=
  match as_number v with
  | Some x => Ok (match num_compare x c with Some (Lt | Eq) => true | _ => false end)
  | None => Raise TypeError
  end.

Definition lt (v : pyval) (c : number) : result bool :=
  match as_number v with
  | Some x => Ok (match num_compare x c with Some Lt => true | _ => false end)
  | None => Raise TypeError
  end.

Definition ge (v : pyval) (c : number) : result bool :=
  match as_number v with
  | Some x => Ok (match num_compare x c with Some (Gt | Eq) => true | _ => false end)
  | None => Raise TypeError
  end.

(** The literals [0.43] and [0.6]: the doubles nearest to 43/100 and 6/10. *)
Definition f0_43 : spec_float :=
  Eval vm_compute in SFdiv prec emax (exact 43) (exact 100).
Definition f0_6 : spec_float :=
  Eval vm_compute in SFdiv prec emax (exact 6) (exact 10).

End Num.
Export Num.

(** ** [str] methods *)

Module Str.

Definition code (c : ascii) : N := N_of_ascii c.

(** [c.isspace()] on Latin-1: tab to carriage return, the four
    separators 28-31, space, NEL and the no-break space. *)
Definition isspace (c : ascii) : bool :=
  let n := code c in
  ((9 <=? n) && (n <=? 13) || (28 <=? n) && (n <=? 32)
   || (n =? 133) || (n =? 160))%N.

Fixpoint lstrip (s : string) : string :=
  match s with
  | String c s' => if isspace c then lstrip s' else s
  | EmptyString => EmptyString
  end.

Fixpoint rstrip (s : string) : string :=
  match s with
  | String c s' =>
      match rstrip s' with
      | EmptyString => if isspace c then EmptyString else String c EmptyString
      | r => String c r
      end
  | EmptyString => EmptyString
  end.

(** [s.strip()] *)
Definition strip (s : string) : string := rstrip (lstrip s).

(** [c.lower()] on Latin-1: the letters A-Z and the accented capitals
    192-222 (the multiplication sign 215 apart) move up by 32. *)
Definition lower_char (c : ascii) : ascii :=
  let n := code c in
  if ((65 <=? n) && (n <=? 90)
      || (192 <=? n) && (n <=? 222) && negb (n =? 215))%N
  then ascii_of_N (n + 32) else c.

(** [s.lower()] *)
Fixpoint lower (s : string) : string :=
  match s with
  | String c s' => String (lower_char c) (lower s')
  | EmptyString => EmptyString
  end.

(** [s.startswith(p)] *)
Fixpoint startswith (s p : string) : bool :=
  match p, s with
  | EmptyString, _ => true
  | String a p', String b s' => Ascii.eqb a b && startswith s' p'
  | String _ _, EmptyString => false
  end.

(** The scan behind [s.split(sep)] for a non-empty [sep]: [cur] is the
    fragment read so far and [skip] counts the characters of a separator
    just matched that are still to be passed over. *)
Fixpoint split_scan (sep : string) (skip : nat) (cur : string) (s : string)
  : list string :=
  match s with
  | EmptyString => [cur]
  | String c s' =>
      match skip with
      | S k => split_scan sep k cur s'
      | O =>
          if startswith s sep
          then cur :: split_scan sep (Nat.pred (String.length sep)) EmptyString s'
          else split_scan sep O (cur +:+ String c EmptyString) s'
      end
  end.

(** [s.split(sep)], [sep] non-empty *)
Definition split (s sep : string) : list string :=
  split_scan sep O EmptyString s.

(** [sep.join(l)] *)
Fixpoint join (sep : string) (l : list string) : string :=
  match l with
  | [] => EmptyString
  | [x] => x
  | x :: l' => x +:+ sep +:+ join sep l'
  end.

(** [s.endswith(p)] *)
Definition endswith (s p : string) : bool :=
  startswith (String.rev s) (String.rev p).

End Str.

(** ** [datetime.strptime(_, '%d/%m/%Y')] *)

Module Datetime.

(** The date part of a [datetime]; with this format the time of day is
    midnight. *)
Record datetime : Type := { year : Z; month : Z; day : Z }.

Definition digit (c : ascii) : option Z :=
  let n := Str.code c in
  if ((48 <=? n) && (n <=? 57))%N then Some (Z.of_N n - 48) else None.

(** Each directive is a regular expression with alternatives.  A
    [match_*] function lists the ways its expression matches at the head
    of the input, in the order the alternation tries them, each with the
    number read and the input left. *)

(** [%d]: [3[0-1]|[1-2]\d|0[1-9]|[1-9]| [1-9]] *)
Definition match_d (s : string) : list (Z * string) :=
  match s with
  | String a r1 =>
      let two :=
        match r1 with
        | String b r2 =>
            match digit a, digit b with
            | Some x, Some y =>
                ((if (x =? 3) && (y <=? 1) then [(30 + y, r2)] else [])
                 ++ (if (1 <=? x) && (x <=? 2) then [(10 * x + y, r2)] else [])
                 ++ (if (x =? 0) && (1 <=? y) then [(y, r2)] else []))%list
            | _, _ => []
            end
        | EmptyString => []
        end in
      let one :=
        match digit a with
        | Some x => if 1 <=? x then [(x, r1)] else []
        | None => []
        end in
      let padded :=
        match r1 with
        | String b r2 =>
            match digit b with
            | Some y => if Ascii.eqb a " "%char && (1 <=? y) then [(y, r2)] else []
            | None => []
            end
        | EmptyString => []
        end in
      (two ++ one ++ padded)%list
  | EmptyString => []
  end.

(** [%m]: [1[0-2]|0[1-9]|[1-9]] *)
Definition match_m (s : string) : list (Z * string) :=
  match s with
  | String a r1 =>
      match digit a with
      | Some x =>
          let two :=
            match r1 with
            | String b r2 =>
                match digit b with
                | Some y =>
                    ((if (x =? 1) && (y <=? 2) then [(10 + y, r2)] else [])
                     ++ (if (x =? 0) && (1 <=? y) then [(y, r2)] else []))%list
                | None => []
                end
            | EmptyString => []
            end in
          (two ++ (if 1 <=? x then [(x, r1)] else []))%list
      | None => []
      end
  | EmptyString => []
  end.

(** [%Y]: [\d\d\d\d] *)
Definition match_Y (s : string) : list (Z * string) :=
  match s with
  | String a (String b (String c (String d r))) =>
      match digit a, digit b, digit c, digit d with
      | Some w, Some x, Some y, Some z => [(1000 * w + 100 * x + 10 * y + z, r)]
      | _, _, _, _ => []
      end
  | _ => []
  end.

(** The literal [/] of the format. *)
Definition match_slash (s : string) : list string :=
  match s with
  | String c r => if Ascii.eqb c "/"%char then [r] else []
  | EmptyString => []
  end.

(** All the matches of the whole expression at the head of the input, in
    backtracking order; [re.match] returns the first. *)
Definition match_format (s : string) : list (Z * Z * Z * string) :=
  '(d, r1) ← match_d s;
  r2 ← match_slash r1;
  '(m, r3) ← match_m r2;
  r4 ← match_slash r3;
  '(y, r5) ← match_Y r4;
  [(d, m, y, r5)].

Definition is_leap (y : Z) : bool :=
  (y mod 4 =? 0) && (negb (y mod 100 =? 0) || (y mod 400 =? 0)).

Definition days_in_month (y m : Z) : Z :=
  if m =? 2 then (if is_leap y then 29 else 28)
  else if (m =? 4) || (m =? 6) || (m =? 9) || (m =? 11) then 30
  else 31.

(** [datetime.date(y, m, d)]: years 1 to 9999, and a day the month has. *)
Definition date (y m d : Z) : result datetime :=
  if (1 <=? y) && (y <=? 9999) && (1 <=? m) && (m <=? 12)
     && (1 <=? d) && (d <=? days_in_month y m)
  then Ok {| year := y; month := m; day := d |}
  else Raise ValueError.

(** [datetime.strptime(v, '%d/%m/%Y')].  [TypeError] unless [v] is a
    [str]; [ValueError] when the text does not match the format, when
    text is left after the match, or when the date does not exist. *)
Definition strptime (v : pyval) : result datetime :=
  match v with
  | PyStr s =>
      match match_format s with
      | [] => Raise ValueError
      | (d, m, y, rest) :: _ =>
          match rest with
          | EmptyString => date y m d
          | String _ _ => Raise ValueError
          end
      end
  | _ => Raise TypeError
  end.

End Datetime.
Export Datetime.

(** ** [class LoanApprovalSystem] *)

Module LoanApprovalSystem.

(** The keys of the criteria, in the order lines 59-70 insert them. *)
Definition criteria_labels : list string :=
  [ "Debt-to-Income Ratio <= 0.43";
    "Credit Score >= 670";
    "Sector of Employment in Preferred List";
    "Number of Existing Loans < 5";
    "Loan Amount <= 60% of Annual Income";
    "Duration at Current Job >= 2 Years";
    "No History of Bankruptcy";
    "Age Between 18 and 70";
    "Residency Status as Permanent Resident or Citizen" ].

(** [extract_from_files]: both fields are read with [dict.get] and the
    default [0]. *)
Definition extract_from_files (json_data : gmap string pyval) : pyval * pyval :=
  let gross_income := get json_data "Monthly Gross Income" (PyInt 0) in
  let credit_score := get json_data "Credit Score" (PyInt 0) in
  (gross_income, credit_score).

(** [evaluate_application], statement by statement; [now] is what
    [datetime.now()] returns on line 68. *)
Definition evaluate_application
    (now : datetime) (application json_data : gmap string pyval)
  : result (string * list (string * bool)) :=
  let '(gross_income, credit_score) := extract_from_files json_data in
  debt ← getitem application "Total Monthly Debt Obligations";
  dti ← truediv debt gross_income;
  let criteria_evaluation : list (string * bool) := [] in
  let criteria_evaluation :=
    setitem criteria_evaluation "Debt-to-Income Ratio <= 0.43"
            (SFleb dti f0_43) in
  credit_ok ← ge credit_score (NInt 670);
  let criteria_evaluation :=
    setitem criteria_evaluation "Credit Score >= 670" credit_ok in
  sector ← getitem application "Sector of Employment";
  let criteria_evaluation :=
    setitem criteria_evaluation "Sector of Employment in Preferred List"
            (in_strs sector ["Government Jobs"; "Healthcare"; "IT"; "Finance"]) in
  loans ← getitem application "Number of Existing Loans";
  loans_ok ← lt loans (NInt 5);
  let criteria_evaluation :=
    setitem criteria_evaluation "Number of Existing Loans < 5" loans_ok in
  amount ← getitem application "Desired Loan Amount";
  annual ← mul (NInt 12) gross_income;
  limit ← num_mul (NFloat f0_6) annual;
  amount_ok ← le amount limit;
  let criteria_evaluation :=
    setitem criteria_evaluation "Loan Amount <= 60% of Annual Income" amount_ok in
  duration ← getitem application "Duration at Current Job";
  duration_ok ← ge duration (NInt 2);
  let criteria_evaluation :=
    setitem criteria_evaluation "Duration at Current Job >= 2 Years" duration_ok in
  bankruptcy ← getitem application "History of Bankruptcy";
  let criteria_evaluation :=
    setitem criteria_evaluation "No History of Bankruptcy"
            (eq_str bankruptcy "No") in
  dob ← getitem application "Date of Birth";
  birth_date ← strptime dob;
  let age := year now - year birth_date in
  let criteria_evaluation :=
    setitem criteria_evaluation "Age Between 18 and 70"
            ((18 <=? age) && (age <=? 70)) in
  residency ← getitem application "Residency Status";
  let criteria_evaluation :=
    setitem criteria_evaluation
            "Residency Status as Permanent Resident or Citizen"
            (in_strs residency ["Permanent Resident"; "Citizen"]) in
  let passed := rules_passed criteria_evaluation in
  let decision := decision_of passed in
  Ok (decision, criteria_evaluation).

(** What [client.completions.create] returns: [choices], each with a
    [text] that a malformed response may lack. *)
Record choice : Type := { text : option string }.
Record completion : Type := { choices : list choice }.

(** The client: from [model], [prompt] and [max_tokens] to a response or
    a raised exception. *)
Definition completions_api : Type := string -> string -> Z -> result completion.

(** [choice.text.strip()]: [AttributeError] without a text. *)
Definition text_strip (c : choice) : result string :=
  match text c with
  | Some t => Ok (Str.strip t)
  | None => Raise AttributeError
  end.

Definition newline : string := String (ascii_of_nat 10) EmptyString.

Section Explanation.

(** [str(application)], which the f-string of the prompt calls; the
    rendering of a [dict] is left to the runtime. *)
Variable repr : gmap string pyval -> string.

(** The client bound to the module-level [client]. *)
Variable create : completions_api.

Definition criteria_details (criteria_evaluation : list (string * bool)) : string :=
  Str.join newline
    (map (fun kv : string * bool =>
            "- " +:+ fst kv +:+ ": " +:+ (if snd kv then "Met" else "Not Met"))
         (items criteria_evaluation)).

Definition prompt (application : gmap string pyval) (decision : string)
    (criteria_evaluation : list (string * bool)) : string :=
  newline
  +:+ "        Based on the following criteria evaluation, provide a concise, three-sentence explanation for why this specific loan application was "
  +:+ Str.lower decision +:+ "." +:+ newline
  +:+ "        Decision: " +:+ decision +:+ ". " +:+ newline
  +:+ "        Application details: " +:+ repr application +:+ newline
  +:+ "        Criteria evaluation:" +:+ newline
  +:+ "        " +:+ criteria_details criteria_evaluation +:+ newline
  +:+ "        ".

(** [generate_explanation]; the handler also logs the exception. *)
Definition generate_explanation (application : gmap string pyval)
    (decision : string) (criteria_evaluation : list (string * bool))
  : result string :=
  let prompt := prompt application decision criteria_evaluation in
  try_except
    (response ← create "gpt-3.5-turbo-instruct" prompt 150;
     first ← index (choices response) 0;
     explanation ← text_strip first;
     let explanation_sentences := Str.split explanation ". " in
     let concise_explanation :=
       Str.join ". " (firstn 3 explanation_sentences) +:+ "." in
     Ok concise_explanation)
    (fun e => Ok "Explanation not available").

(** [process_application]: the record read from one payload serves as
    application and as supporting document. *)
Definition process_application (now : datetime) (application : gmap string pyval)
  : result (gmap string pyval) :=
  '(decision, criteria_evaluation) ← evaluate_application now application application;
  explanation ← generate_explanation application decision criteria_evaluation;
  id ← getitem application "_id";
  Ok (<["application_id" := id]>
        (<["result" := PyStr decision]>
           (<["explanation" := PyStr explanation]> ∅))).

End Explanation.

End LoanApprovalSystem.
Export LoanApprovalSystem.

(** ** Conditions on the inputs, and sample inputs *)

Module Inputs.

(** The value the evaluator takes as monthly gross income. *)
Definition gross_income_of (json_data : gmap string pyval) : pyval :=
  fst (extract_from_files json_data).

(** [v == 0] holds and [v] is a number: [0], [0.0], [-0.0] or [False]. *)
Definition is_zero_number (v : pyval) : bool :=
  match as_number v with
  | Some (NInt n) => n =? 0
  | Some (NFloat f) => is_zero f
  | None => false
  end.

(** [v > 0] holds and [v] is a number. *)
Definition is_positive_number (v : pyval) : bool :=
  match as_number v with
  | Some (NInt n) => 0 <? n
  | Some (NFloat f) => SFltb (S754_zero false) f
  | None => false
  end.

Definition is_number (v : pyval) : bool :=
  match as_number v with
  | Some _ => true
  | None => false
  end.

(** A number whose conversion to [float] is far from overflowing: any
    [float], or an [int] below [2 ^ 1000] in magnitude. *)
Definition is_moderate_number (v : pyval) : bool :=
  match as_number v with
  | Some (NInt n) => Z.abs n <? 2 ^ 1000
  | Some (NFloat _) => true
  | None => false
  end.

Definition parses (v : pyval) : bool :=
  match v with
  | PyStr _ => match strptime v with Ok _ => true | Raise _ => false end
  | _ => false
  end.

Definition field_is (p : pyval -> bool) (d : gmap string pyval) (key : string)
  : bool :=
  match d !! key with
  | Some v => p v
  | None => false
  end.

(** The application carries every field the evaluator reads, numbers
    where it computes with them, and a date of birth that
    [strptime] accepts; the supporting document's income and credit
    score, after defaulting, are numbers. *)
Definition well_formed (application json_data : gmap string pyval) : bool :=
  is_moderate_number (gross_income_of json_data)
  && is_number (snd (extract_from_files json_data))
  && field_is is_moderate_number application "Total Monthly Debt Obligations"
  && field_is (fun _ => true) application "Sector of Employment"
  && field_is is_number application "Number of Existing Loans"
  && field_is is_number application "Desired Loan Amount"
  && field_is is_number application "Duration at Current Job"
  && field_is (fun _ => true) application "History of Bankruptcy"
  && field_is parses application "Date of Birth"
  && field_is (fun _ => true) application "Residency Status".

(** The first end-to-end example of the specification: DTI 0.3, credit
    score 700, sector IT, 2 loans, a loan of 40% of the annual income, 3
    years at the job, no bankruptcy, born in 1990, citizen. *)
Definition sample_application : gmap string pyval :=
  list_to_map
    [ ("_id", PyStr "65a1f0");
      ("Total Monthly Debt Obligations", PyInt 1500);
      ("Monthly Gross Income", PyInt 5000);
      ("Credit Score", PyInt 700);
      ("Sector of Employment", PyStr "IT");
      ("Number of Existing Loans", PyInt 2);
      ("Desired Loan Amount", PyInt 24000);
      ("Duration at Current Job", PyInt 3);
      ("History of Bankruptcy", PyStr "No");
      ("Date of Birth", PyStr "15/06/1990");
      ("Residency Status", PyStr "Citizen") ].

Definition sample_now : datetime := {| year := 2025; month := 3; day := 14 |}.

(** Eight criteria met, one not. *)
Definition eight_of_nine : list (string * bool) :=
  [ ("Debt-to-Income Ratio <= 0.43", true);
    ("Credit Score >= 670", false);
    ("Sector of Employment in Preferred List", true);
    ("Number of Existing Loans < 5", true);
    ("Loan Amount <= 60% of Annual Income", true);
    ("Duration at Current Job >= 2 Years", true);
    ("No History of Bankruptcy", true);
    ("Age Between 18 and 70", true);
    ("Residency Status as Permanent Resident or Citizen", true) ].

(** The same application, evaluated later in the same year. *)
Definition sample_later : datetime := {| year := 2025; month := 12; day := 31 |}.

(** The payload without the supporting-document fields. *)
Definition application_without_income : gmap string pyval :=
  delete "Monthly Gross Income" sample_application.

Definition application_without_documents : gmap string pyval :=
  delete "Credit Score" (delete "Monthly Gross Income" sample_application).

(** A date of birth in another format, and one that names no day of the
    calendar. *)
Definition application_iso_birth : gmap string pyval :=
  <["Date of Birth" := PyStr "1990-06-15"]> sample_application.

Definition application_february_30 : gmap string pyval :=
  <["Date of Birth" := PyStr "30/02/1990"]> sample_application.

(** A sector outside the preferred list. *)
Definition application_retail : gmap string pyval :=
  <["Sector of Employment" := PyStr "Retail"]> sample_application.

(** A stand-in for [str(application)]. *)
Definition sample_repr (application : gmap string pyval) : string := "{...}".

(** A client whose call times out, and clients that answer. *)
Definition client_timing_out : completions_api :=
  fun _ _ _ => Raise (APIError "Request timed out.").

Definition client_answering (answer : string) : completions_api :=
  fun _ _ _ => Ok {| choices := [ {| text := Some answer |} ] |}.

(** The external call failed: the client raised, or its response has no
    first choice with a text. *)
Definition call_failed (r : result completion) : Prop :=
  match r with
  | Raise _ => True
  | Ok response =>
      match choices response with
      | [] => True
      | first :: _ => text first = None
      end
  end.

(** The second end-to-end example: credit score 600 and sector Retail. *)
Definition application_declined : gmap string pyval :=
  <["Credit Score" := PyInt 600]> application_retail.

(** Born on the last day of 2007: aged 17 on [sample_now], 18 by the
    difference of the years. *)
Definition application_born_2007 : gmap string pyval :=
  <["Date of Birth" := PyStr "31/12/2007"]> sample_application.

(** All nine criteria met. *)
Definition nine_of_nine : list (string * bool) :=
  map (fun label : string => (label, true)) criteria_labels.

(** The criteria of [application_retail]. *)
Definition all_but_sector : list (string * bool) :=
  setitem nine_of_nine "Sector of Employment in Preferred List" false.

End Inputs.
Export Inputs.

(** ** The URL helper and the HTTP endpoint *)

Module Transport.

(** [format_url]: [url.startswith(('http://', 'https://'))] holds when
    one of the two prefixes matches. *)
Definition format_url (url : string) : string :=
  if negb (Str.startswith url "http://" || Str.startswith url "https://")
  then "https:" +:+ url
  else url.

(** The [dict] a JSON object parses to: its members are stored one
    after the other, so of a repeated key the last one stays, as with
    [json.loads]. *)
Definition to_dict (d : list (string * pyval)) : gmap string pyval :=
  fold_left (fun (m : gmap string pyval) (kv : string * pyval) =>
               <[fst kv := snd kv]> m)
            d ∅.

(** [v[key]] with a [str] key: only a [dict] can be indexed so. *)
Definition subscript (v : pyval) (key : string) : result pyval :=
  match v with
  | PyDict d => getitem (to_dict d) key
  | _ => Raise TypeError
  end.

(** What the view returns: [jsonify(result=processed_data)] or
    [jsonify(error=message)], with the status beside it. *)
Inductive json_body : Type :=
  | ResultBody (processed_data : gmap string pyval)
  | ErrorBody (message : string).

Section Endpoint.

Variable repr : gmap string pyval -> string.
Variable create : completions_api.

(** [str(e)] for a caught exception. *)
Variable exn_str : exn -> string.

(** [loan_system.process_application(entry_data)] on whatever object the
    request carried: the first thing done with it is
    [json_data.get(...)] on line 47, which only a [dict] has. *)
Definition call_process_application (now : datetime) (entry_data : pyval)
  : result (gmap string pyval) :=
  match entry_data with
  | PyDict d => process_application repr create now (to_dict d)
  | _ => Raise AttributeError
  end.

(** [process_entry]; [request_json] is what [request.json] evaluates to,
    the parsed body or the exception Flask raises for it.  Both log
    calls are left out. *)
Definition process_entry (now : datetime) (request_json : result pyval)
  : json_body * Z :=
  match
    (body ← request_json;
     entry_data ← subscript body "response";
     call_process_application now entry_data)
  with
  | Ok processed_data => (ResultBody processed_data, 200)
  | Raise e => (ErrorBody (exn_str e), 500)
  end.

End Endpoint.

End Transport.
Export Transport.

(** ** Auxiliary notions for the properties below *)

Module Notions.

(** The text between the occurrences of ". " met from the left: what
    [Str.split _ ". "] computes, written without an accumulator. *)
Definition push (c : ascii) (l : list string) : list string :=
  match l with
  | f :: fs => String c f :: fs
  | [] => [String c EmptyString]
  end.

Fixpoint fragments (s : string) : list string :=
  match s with
  | EmptyString => [EmptyString]
  | String c r =>
      match r with
      | String d r' =>
          if Ascii.eqb c "."%char && Ascii.eqb d " "%char
          then EmptyString :: fragments r'
          else push c (fragments r)
      | EmptyString => push c (fragments r)
      end
  end.

(** Is the input at an occurrence of ". "? *)
Definition at_separator s : bool :=
  match s with
  | String c (String d _) => Ascii.eqb c "."%char && Ascii.eqb d " "%char
  | _ => false
  end.

(** The fields the evaluator reads, of the application and of the
    supporting document. *)
Definition application_keys : list string :=
  [ "Total Monthly Debt Obligations"; "Sector of Employment";
    "Number of Existing Loans"; "Desired Loan Amount";
    "Duration at Current Job"; "History of Bankruptcy"; "Date of Birth";
    "Residency Status" ].

Definition document_keys : list string :=
  [ "Monthly Gross Income"; "Credit Score" ].

(** [p] is the beginning of [s]. *)
Definition is_prefix (p s : string) : Prop := exists rest : string, s = p +:+ rest.

Fixpoint all_space (s : string) : bool :=
  match s with
  | String c r => Str.isspace c && all_space r
  | EmptyString => true
  end.

(** What the evaluator needs in order to return: the eight fields of
    the application it subscripts, numbers where it computes (the income
    and the credit score as [extract_from_files] gives them, so [0] for
    an absent one), an income that is not zero, and a date of birth that
    [strptime] accepts. *)
Definition readable (application json_data : gmap string pyval) : bool :=
  is_number (gross_income_of json_data)
  && negb (is_zero_number (gross_income_of json_data))
  && is_number (snd (extract_from_files json_data))
  && field_is is_number application "Total Monthly Debt Obligations"
  && field_is (fun _ => true) application "Sector of Employment"
  && field_is is_number application "Number of Existing Loans"
  && field_is is_number application "Desired Loan Amount"
  && field_is is_number application "Duration at Current Job"
  && field_is (fun _ => true) application "History of Bankruptcy"
  && field_is parses application "Date of Birth"
  && field_is (fun _ => true) application "Residency Status".

(** The record [process_application] builds. *)
Definition processed_record (id : pyval) (decision explanation : string)
  : gmap string pyval :=
  <["application_id" := id]>
    (<["result" := PyStr decision]>
       (<["explanation" := PyStr explanation]> ∅)).

(** The entries of [sample_application], and requests carrying them. *)
Definition sample_entries : list (string * pyval) :=
  [ ("_id", PyStr "65a1f0");
    ("Total Monthly Debt Obligations", PyInt 1500);
    ("Monthly Gross Income", PyInt 5000);
    ("Credit Score", PyInt 700);
    ("Sector of Employment", PyStr "IT");
    ("Number of Existing Loans", PyInt 2);
    ("Desired Loan Amount", PyInt 24000);
    ("Duration at Current Job", PyInt 3);
    ("History of Bankruptcy", PyStr "No");
    ("Date of Birth", PyStr "15/06/1990");
    ("Residency Status", PyStr "Citizen") ].

Definition sample_request : pyval := PyDict [("response", PyDict sample_entries)].

(** The same entries with an income of [0], and their request. *)
Definition zero_income_entries : list (string * pyval) :=
  [ ("_id", PyStr "65a1f0");
    ("Total Monthly Debt Obligations", PyInt 1500);
    ("Monthly Gross Income", PyInt 0);
    ("Credit Score", PyInt 700);
    ("Sector of Employment", PyStr "IT");
    ("Number of Existing Loans", PyInt 2);
    ("Desired Loan Amount", PyInt 24000);
    ("Duration at Current Job", PyInt 3);
    ("History of Bankruptcy", PyStr "No");
    ("Date of Birth", PyStr "15/06/1990");
    ("Residency Status", PyStr "Citizen") ].

Definition request_zero_income : pyval :=
  PyDict [("response", PyDict zero_income_entries)].

Definition application_without_id : gmap string pyval :=
  delete "_id" sample_application.

(** A stand-in for [str(e)]. *)
Definition sample_exn_str (e : exn) : string :=
  match e with
  | KeyError key => "'" +:+ key +:+ "'"
  | ZeroDivisionError => "division by zero"
  | APIError msg => msg
  | _ => "error"
  end.

(** No income, and no debt field or a debt sent as text. *)
Definition application_without_debt : gmap string pyval :=
  delete "Total Monthly Debt Obligations" application_without_income.

Definition application_text_debt : gmap string pyval :=
  <["Total Monthly Debt Obligations" := PyStr "1500"]> application_without_income.

(** Requests in which the income is given twice. *)
Definition request_income_zero_then_5000 : pyval :=
  PyDict [("response",
           PyDict (("Monthly Gross Income", PyInt 0) :: sample_entries))].

Definition request_income_5000_then_zero : pyval :=
  PyDict [("response",
           PyDict (sample_entries ++ [("Monthly Gross Income", PyInt 0)])%list)].

(** A credit score sent as text. *)
Definition application_text_score : gmap string pyval :=
  <["Credit Score" := PyStr "700"]> sample_application.

End Notions.
Export Notions.

(** ** Decision aggregation: properties *)

Section AggregatorFacts.

Implicit Types criteria_evaluation other : list (string * bool).

Lemma rules_passed_from (acc : Z) criteria_evaluation :
  fold_left (fun (passed : Z) (kv : string * bool) =>
               if snd kv then passed + 1 else passed)
            criteria_evaluation acc
  = acc + Z.of_nat (count_true criteria_evaluation).
Proof.
  revert acc. induction criteria_evaluation as [|[k v] rest IH]; intros acc.
  - cbn. lia.
  - cbn [fold_left]. rewrite IH. unfold count_true. cbn [List.filter snd].
    destruct v; cbn [length]; lia.
Qed.

(** The loop of lines 72-74 computes the specification's count. *)
Lemma rules_passed_count criteria_evaluation :
  rules_passed criteria_evaluation = Z.of_nat (count_true criteria_evaluation).
Proof. unfold rules_passed, items. rewrite rules_passed_from. lia. Qed.

Lemma decision_of_approved (passed : Z) :
  decision_of passed = "Approved" <-> 8 <= passed.
Proof.
  unfold decision_of. destruct (Z.leb_spec 8 passed); split; intros; try done; lia.
Qed.

Lemma decision_approved criteria_evaluation :
  decision criteria_evaluation = "Approved"
  <-> (8 <= count_true criteria_evaluation)%nat.
Proof.
  unfold decision. rewrite decision_of_approved, rules_passed_count. lia.
Qed.

Lemma count_true_setitem criteria_evaluation (key : string) :
  lookup_item criteria_evaluation key = Some false ->
  count_true (setitem criteria_evaluation key true)
  = S (count_true criteria_evaluation).
Proof.
  unfold count_true.
  induction criteria_evaluation as [|[k v] rest IH]; cbn [lookup_item setitem].
  - discriminate.
  - destruct (String.eqb k key).
    + intros [= ->]. reflexivity.
    + intros H. cbn [List.filter snd]. destruct v; cbn [length]; rewrite IH; auto.
Qed.

(** C1: the aggregated decision is Approved exactly when at least 8
    entries of the criteria mapping are true; 8 true entries are enough
    (the threshold is inclusive); the decision is one of the two labels;
    and two mappings with the same number of true entries get the same
    decision, whichever entries those are. *)
Theorem C1_approved_iff_eight_true criteria_evaluation :
  (decision criteria_evaluation = "Approved"
   <-> (8 <= count_true criteria_evaluation)%nat)
  /\ (decision criteria_evaluation = "Declined"
      <-> (count_true criteria_evaluation < 8)%nat)
  /\ (count_true criteria_evaluation = 8%nat
      -> decision criteria_evaluation = "Approved")
  /\ (forall other, count_true other = count_true criteria_evaluation
      -> decision other = decision criteria_evaluation).
Proof.
  repeat split.
  - apply decision_approved.
  - apply decision_approved.
  - unfold decision, decision_of. rewrite rules_passed_count.
    destruct (Z.leb_spec 8 (Z.of_nat (count_true criteria_evaluation)));
      [discriminate | lia].
  - unfold decision, decision_of. rewrite rules_passed_count.
    destruct (Z.leb_spec 8 (Z.of_nat (count_true criteria_evaluation)));
      [lia | reflexivity].
  - intros H. apply decision_approved. lia.
  - intros other H. unfold decision. rewrite !rules_passed_count, H. reflexivity.
Qed.

(** C10: an Approved mapping stays Approved when one of its false
    entries is set to true, and every mapping with at least as many true
    entries is Approved as well. *)
Theorem C10_approved_is_monotone criteria_evaluation :
  decision criteria_evaluation = "Approved" ->
  (forall key : string,
      lookup_item criteria_evaluation key = Some false ->
      decision (setitem criteria_evaluation key true) = "Approved")
  /\ (forall other,
         (count_true criteria_evaluation <= count_true other)%nat ->
         decision other = "Approved").
Proof.
  intros Happ. apply decision_approved in Happ. split.
  - intros key Hkey. apply decision_approved.
    rewrite (count_true_setitem _ _ Hkey). lia.
  - intros other Hle. apply decision_approved. lia.
Qed.

Lemma C10_approved_is_monotone_witness :
  decision eight_of_nine = "Approved"
  /\ decision (setitem eight_of_nine "Credit Score >= 670" true) = "Approved".
Proof.
  split.
  - reflexivity.
  - exact (proj1 (C10_approved_is_monotone eight_of_nine eq_refl)
                 "Credit Score >= 670" eq_refl).
Defined.

End AggregatorFacts.

(** ** Extraction of the supporting-document fields *)

Section ExtractionFacts.

Implicit Types json_data : gmap string pyval.

(** C6: a supporting document without the monthly gross income, or
    without the credit score, is read with [0] in the place of the missing
    field (no exception is raised: extraction returns a pair for every
    document); a field that is present is returned as it is. *)
Theorem C6_absent_fields_read_as_zero json_data :
  (json_data !! "Monthly Gross Income" = None ->
   fst (extract_from_files json_data) = PyInt 0)
  /\ (json_data !! "Credit Score" = None ->
      snd (extract_from_files json_data) = PyInt 0)
  /\ (forall v, json_data !! "Monthly Gross Income" = Some v ->
                fst (extract_from_files json_data) = v)
  /\ (forall v, json_data !! "Credit Score" = Some v ->
                snd (extract_from_files json_data) = v).
Proof.
  unfold extract_from_files, get; cbn [fst snd].
  repeat split; intros; match goal with H : _ !! _ = _ |- _ => rewrite H end;
    reflexivity.
Qed.

Lemma C6_absent_fields_read_as_zero_witness :
  extract_from_files application_without_documents = (PyInt 0, PyInt 0).
Proof.
  pose proof (C6_absent_fields_read_as_zero application_without_documents)
    as (Hincome & Hscore & _).
  rewrite (surjective_pairing (extract_from_files _)).
  rewrite Hincome, Hscore; reflexivity.
Defined.

End ExtractionFacts.

(** ** Explanation generation *)

Section ExplanationFacts.

Variable repr : gmap string pyval -> string.
Variable create : completions_api.

Implicit Types application : gmap string pyval.
Implicit Types criteria_evaluation : list (string * bool).

(** X1: whatever the client does (raise, answer without a usable first
    choice, or answer with a text), [generate_explanation] returns a
    string and raises nothing. *)
Lemma generate_explanation_returns application (decision : string)
    criteria_evaluation :
  exists explanation,
    generate_explanation repr create application decision criteria_evaluation
    = Ok explanation.
Proof.
  unfold generate_explanation, try_except, index, text_strip.
  destruct (create _ _ _) as [[[|[[t|]] rest]]|e]; cbn; eauto.
Qed.

(** With an answer in hand the result is the first three fragments of the
    stripped text, joined again, with a period added in every case. *)
Lemma generate_explanation_answer application (decision : string)
    criteria_evaluation (answer : string) (rest : list choice) :
  create "gpt-3.5-turbo-instruct"
         (prompt repr application decision criteria_evaluation) 150
  = Ok {| choices := {| text := Some answer |} :: rest |} ->
  generate_explanation repr create application decision criteria_evaluation
  = Ok (Str.join ". " (firstn 3 (Str.split (Str.strip answer) ". ")) +:+ ".").
Proof.
  intros H. unfold generate_explanation. rewrite H. reflexivity.
Qed.

(** C3: when the external call fails (the client raises any exception,
    or its response is malformed), [generate_explanation] returns exactly
    the string "Explanation not available"; nothing is raised to the
    caller. *)
Theorem C3_failed_call_gives_fallback application (decision : string)
    criteria_evaluation :
  call_failed (create "gpt-3.5-turbo-instruct"
                      (prompt repr application decision criteria_evaluation)
                      150) ->
  generate_explanation repr create application decision criteria_evaluation
  = Ok "Explanation not available".
Proof.
  unfold call_failed, generate_explanation, try_except, index, text_strip.
  destruct (create _ _ _) as [[[|[[t|]] rest]]|e]; cbn; intros H;
    try reflexivity; discriminate H.
Qed.

End ExplanationFacts.

Lemma C3_failed_call_gives_fallback_witness :
  generate_explanation sample_repr client_timing_out sample_application
                       "Approved" eight_of_nine
  = Ok "Explanation not available".
Proof.
  exact (C3_failed_call_gives_fallback sample_repr client_timing_out
           sample_application "Approved" eight_of_nine I).
Defined.

(** C5: at an answer that already ends with a period the result ends
    with two: the period is added without looking at the text.  The
    fragments are those of the stripped answer, at most three. *)
Theorem C5_period_added_after_period :
  generate_explanation sample_repr
    (client_answering " The application meets eight of the nine criteria. ")
    sample_application "Approved" eight_of_nine
  = Ok "The application meets eight of the nine criteria.."
  /\ generate_explanation sample_repr
       (client_answering "One. Two. Three. Four. Five.")
       sample_application "Approved" eight_of_nine
     = Ok "One. Two. Three.".
Proof. split; reflexivity. Qed.

(** ** Arithmetic: when it returns *)

Section ArithmeticFacts.

(** The number of binary digits is [Pos.size]. *)
Lemma digits2_pos_size (p : positive) : digits2_pos p = Pos.size p.
Proof. induction p; cbn; congruence. Qed.

(** One step of the rounding shift halves the mantissa. *)
Lemma shr_m_shr_1 (mrs : shr_record) :
  0 <= shr_m mrs -> shr_m (shr_1 mrs) = Z.div2 (shr_m mrs).
Proof.
  destruct mrs as [[|[p|p|]|p] r s]; cbn; intros H; try reflexivity; lia.
Qed.

Lemma shr_m_iter_pos (k : positive) : forall mrs : shr_record,
  0 <= shr_m mrs ->
  shr_m (iter_pos shr_1 k mrs) = Z.shiftr (shr_m mrs) (Zpos k).
Proof.
  assert (Hnn : forall mrs, 0 <= shr_m mrs -> 0 <= shr_m (shr_1 mrs)).
  { intros mrs H. rewrite shr_m_shr_1 by done. apply Z.div2_nonneg; done. }
  induction k as [k IH|k IH|]; intros mrs H; cbn [iter_pos].
  - rewrite IH, IH, shr_m_shr_1 by (rewrite ?IH; try apply Z.shiftr_nonneg; auto).
    rewrite Z.div2_spec, !Z.shiftr_shiftr by lia. f_equal; lia.
  - rewrite IH, IH by (rewrite ?IH; try apply Z.shiftr_nonneg; auto).
    rewrite !Z.shiftr_shiftr by lia. f_equal; lia.
  - rewrite shr_m_shr_1 by done. apply Z.div2_spec.
Qed.

Lemma shiftr_pos_below_size (m : positive) (n : Z) :
  0 <= n < Zpos (Pos.size m) -> 0 < Z.shiftr (Zpos m) n.
Proof.
  intros [Hn Hlt]. rewrite Z.shiftr_div_pow2 by done.
  apply Z.div_str_pos. split; [apply Z.pow_pos_nonneg; lia|].
  pose proof (Pos.size_le m) as Hle.
  assert (2 ^ n * 2 <= 2 ^ Zpos (Pos.size m)).
  { replace (2 ^ n * 2) with (2 ^ (n + 1)) by (rewrite Z.pow_add_r; lia).
    apply Z.pow_le_mono_r; lia. }
  assert (2 ^ Zpos (Pos.size m) <= Zpos m~0).
  { rewrite <- Pos2Z.inj_pow. apply Pos2Z.pos_le_pos. exact Hle. }
  lia.
Qed.

(** Shifting a positive mantissa to its format exponent leaves it positive. *)
Lemma shr_fexp_positive (m : positive) (e : Z) (l : location) :
  -1074 <= e ->
  (exists m', shr_m (fst (shr_fexp prec emax (Zpos m) e l)) = Zpos m')
  /\ -1074 <= snd (shr_fexp prec emax (Zpos m) e l).
Proof.
  intros He. unfold shr_fexp, shr, fexp, SpecFloat.emin, prec, emax.
  cbn [Zdigits2]. rewrite digits2_pos_size.
  pose proof (Pos2Z.is_pos (Pos.size m)) as Hs.
  set (n := Z.max (Zpos (Pos.size m) + e - 53) (3 - 1024 - 53) - e).
  assert (Hn : n < Zpos (Pos.size m)) by lia.
  assert (Hm : forall r, shr_m (shr_record_of_loc (Zpos m) r) = Zpos m).
  { intros [|[]]; reflexivity. }
  destruct n as [|k|k] eqn:En; cbn [fst snd].
  - rewrite Hm. split; [eauto | lia].
  - split; [|lia]. rewrite shr_m_iter_pos by (rewrite Hm; lia). rewrite Hm.
    pose proof (shiftr_pos_below_size m (Zpos k) ltac:(lia)) as Hpos.
    destruct (Z.shiftr (Zpos m) (Zpos k)) as [|q|q]; try lia. eauto.
  - rewrite Hm. split; [eauto | lia].
Qed.

(** Rounding a positive mantissa never gives a zero. *)
Lemma binary_round_aux_nonzero (sx : bool) (mx : positive) (ex : Z) (lx : location) :
  -1074 <= ex ->
  is_zero (binary_round_aux prec emax sx (Zpos mx) ex lx) = false.
Proof.
  intros He. unfold binary_round_aux.
  destruct (shr_fexp_positive mx ex lx He) as [[m' Hm'] He'].
  destruct (shr_fexp prec emax (Zpos mx) ex lx) as [mrs' e'].
  cbn [fst snd] in *. rewrite Hm'.
  assert (exists m1, round_nearest_even (Zpos m') (loc_of_shr_record mrs') = Zpos m1)
    as [m1 Hm1].
  { unfold round_nearest_even.
    destruct (loc_of_shr_record mrs') as [|[]]; eauto.
    destruct (Z.even (Zpos m')); eauto. }
  rewrite Hm1.
  destruct (shr_fexp_positive m1 e' loc_Exact He') as [[m2 Hm2] _].
  destruct (shr_fexp prec emax (Zpos m1) e' loc_Exact) as [mrs'' e''].
  cbn [fst] in Hm2. rewrite Hm2. destruct (e'' <=? _); reflexivity.
Qed.

(** A non-zero [int] converts to a non-zero [float]. *)
Lemma float_of_int_nonzero (n : Z) (y : spec_float) :
  n <> 0 -> float_of_int n = Ok y -> is_zero y = false.
Proof.
  intros Hn. unfold float_of_int. destruct (_ <=? _); [discriminate|].
  intros [= <-]. destruct n as [|p|p]; [done| |];
    cbn [binary_normalize]; unfold binary_round;
    destruct (shl_align _ _ _) as [mz ez] eqn:E;
    apply binary_round_aux_nonzero;
    unfold shl_align, fexp, SpecFloat.emin, prec, emax in E;
    destruct (_ - 0) eqn:E'; injection E as <- <-; lia.
Qed.

Lemma moderate_below_threshold : 12 * 2 ^ 1000 < overflow_threshold.
Proof. reflexivity. Qed.

Lemma float_of_int_moderate (n : Z) :
  Z.abs n < 12 * 2 ^ 1000 -> exists f, float_of_int n = Ok f.
Proof.
  intros H. unfold float_of_int.
  pose proof moderate_below_threshold.
  destruct (Z.leb_spec overflow_threshold (Z.abs n)); [lia | eauto].
Qed.

(** Line 55 returns on moderate numbers with a positive divisor. *)
Lemma truediv_returns (debt income : pyval) :
  is_moderate_number debt = true ->
  is_moderate_number income = true ->
  is_positive_number income = true ->
  exists dti, truediv debt income = Ok dti.
Proof.
  unfold is_moderate_number, is_positive_number, truediv.
  pose proof moderate_below_threshold as HT.
  assert (H0 : 0 < 2 ^ 1000) by reflexivity.
  destruct (as_number debt) as [[a|x]|], (as_number income) as [[b|y]|];
    try discriminate; intros Ha Hb Hpos.
  - unfold int_truediv.
    destruct (Z.eqb_spec b 0); [lia|].
    destruct (Z.leb_spec (overflow_threshold * Z.abs b) (Z.abs a)); [|eauto].
    assert (overflow_threshold * 1 <= overflow_threshold * Z.abs b)
      by (apply Z.mul_le_mono_nonneg_l; lia).
    lia.
  - destruct (float_of_int_moderate a) as [f ->]; [lia|].
    cbn. unfold float_truediv. destruct y as [s|s| |s m e]; try discriminate; eauto.
  - destruct (float_of_int_moderate b) as [f Hf]; [lia|]. rewrite Hf. cbn.
    unfold float_truediv. rewrite (float_of_int_nonzero b f) by (done || lia). eauto.
  - unfold float_truediv. destruct y as [s|s| |s m e]; try discriminate; eauto.
Qed.

End ArithmeticFacts.

(** ** Criteria evaluation *)

Section EvaluationFacts.

Implicit Types application json_data : gmap string pyval.

Ltac step H :=
  match type of H with
  | match ?x with Ok _ => _ | Raise _ => _ end = _ =>
      let E := fresh "E" in destruct x eqn:E; [ cbv beta in H | discriminate H ]
  end.

Lemma getitem_lookup application (key : string) (v : pyval) :
  application !! key = Some v -> getitem application key = Ok v.
Proof. intros H. unfold getitem. rewrite H. reflexivity. Qed.

Lemma getitem_inv application (key : string) (v : pyval) :
  getitem application key = Ok v -> application !! key = Some v.
Proof. unfold getitem. destruct (_ !! _); intros [= ->]; reflexivity. Qed.

Lemma field_is_true (p : pyval -> bool) application (key : string) :
  field_is p application key = true ->
  exists v, getitem application key = Ok v /\ p v = true.
Proof.
  unfold field_is, getitem. destruct (_ !! _) as [v|]; [eauto | discriminate].
Qed.

Lemma ge_returns (v : pyval) (c : number) :
  is_number v = true -> exists b, ge v c = Ok b.
Proof. unfold is_number, ge. destruct (as_number v); [eauto | discriminate]. Qed.

Lemma lt_returns (v : pyval) (c : number) :
  is_number v = true -> exists b, lt v c = Ok b.
Proof. unfold is_number, lt. destruct (as_number v); [eauto | discriminate]. Qed.

Lemma le_returns (v : pyval) (c : number) :
  is_number v = true -> exists b, le v c = Ok b.
Proof. unfold is_number, le. destruct (as_number v); [eauto | discriminate]. Qed.

(** The right-hand side of line 63 returns on a moderate income. *)
Lemma limit_returns (income : pyval) :
  is_moderate_number income = true ->
  exists annual limit,
    mul (NInt 12) income = Ok annual /\ num_mul (NFloat f0_6) annual = Ok limit.
Proof.
  unfold is_moderate_number, mul. destruct (as_number income) as [[b|g]|];
    [| |discriminate]; intros Hb.
  - cbn [num_mul]. destruct (float_of_int_moderate (12 * b)) as [f Hf]; [lia|].
    do 2 eexists. split; [reflexivity|]. cbn [num_mul]. rewrite Hf. reflexivity.
  - cbn [num_mul]. destruct (float_of_int_moderate 12) as [f ->]; [reflexivity|].
    cbn. eauto.
Qed.

Lemma moderate_is_number (v : pyval) :
  is_moderate_number v = true -> is_number v = true.
Proof.
  unfold is_moderate_number, is_number. destruct (as_number v); [reflexivity | discriminate].
Qed.

(** What a returning evaluation went through, and what it returned. *)
Lemma evaluate_application_inv (now : datetime) application json_data
    (decision : string) (criteria_evaluation : list (string * bool)) :
  evaluate_application now application json_data
  = Ok (decision, criteria_evaluation) ->
  exists (dob : pyval) (birth_date : datetime) (b1 b2 b3 b4 b5 b6 b7 b9 : bool),
    getitem application "Date of Birth" = Ok dob
    /\ strptime dob = Ok birth_date
    /\ criteria_evaluation
       = combine criteria_labels
           [ b1; b2; b3; b4; b5; b6; b7;
             (18 <=? year now - year birth_date)
             && (year now - year birth_date <=? 70);
             b9 ]
    /\ decision = Aggregator.decision criteria_evaluation.
Proof.
  intros H. unfold evaluate_application, extract_from_files in H.
  unfold mbind, result_bind in H. cbv beta iota zeta in H.
  repeat step H.
  injection H as Hd Hc. subst criteria_evaluation decision.
  do 10 eexists. repeat split; eauto.
Qed.


(** C2, amended: when the monthly gross income of the supporting
    document is 0 (a zero of any numeric type, or absent and so read as
    0), the evaluator raises at line 55: it returns no decision and no
    criteria mapping, and no infinite or NaN ratio is formed.  The
    exception is one of Python's own: [ZeroDivisionError] whenever the
    debt field holds a moderate number, [KeyError] for the debt field
    when that is absent, [TypeError] when it holds no number, and
    otherwise [ZeroDivisionError] or [OverflowError]. *)
Theorem C2_zero_income_raises (now : datetime) application json_data :
  is_zero_number (gross_income_of json_data) = true ->
  exists e,
    evaluate_application now application json_data = Raise e
    /\ (e = ZeroDivisionError \/ e = OverflowError \/ e = TypeError
        \/ e = KeyError "Total Monthly Debt Obligations")
    /\ (field_is is_moderate_number application
                 "Total Monthly Debt Obligations" = true ->
        e = ZeroDivisionError)
    /\ (application !! "Total Monthly Debt Obligations" = None ->
        e = KeyError "Total Monthly Debt Obligations")
    /\ (field_is (fun debt => negb (is_number debt)) application
                 "Total Monthly Debt Obligations" = true ->
        e = TypeError).
Proof.
  unfold is_zero_number, gross_income_of, evaluate_application, field_is, getitem.
  destruct (extract_from_files json_data) as [gross_income credit_score].
  cbn [fst]. intros Hzero.
  destruct (application !! "Total Monthly Debt Obligations") as [debt|];
    [|eexists; split; [reflexivity|]; repeat split; intros; auto; discriminate].
  cbn [mbind result_bind]. unfold truediv, is_moderate_number, is_number.
  destruct (as_number gross_income) as [[b|y]|]; [| |discriminate].
  - apply Z.eqb_eq in Hzero as ->.
    destruct (as_number debt) as [[a|x]|];
      (eexists; split; [reflexivity|]; repeat split; intros; auto; discriminate).
  - destruct y as [s|s| |s m e]; try discriminate.
    destruct (as_number debt) as [[a|x]|].
    + unfold float_of_int.
      destruct (Z.leb_spec overflow_threshold (Z.abs a)) as [Hbig|Hsmall];
        (eexists; split; [reflexivity|]; repeat split; intros; auto;
         try discriminate).
      pose proof moderate_below_threshold. lia.
    + eexists; split; [reflexivity|]; repeat split; intros; auto; discriminate.
    + eexists; split; [reflexivity|]; repeat split; intros; auto; discriminate.
Qed.

Lemma C2_zero_income_raises_witness :
  evaluate_application sample_now application_without_income
                       application_without_income
  = Raise ZeroDivisionError.
Proof.
  destruct (C2_zero_income_raises sample_now application_without_income
              application_without_income eq_refl)
    as (e & Hraise & _ & He & _).
  rewrite Hraise, (He eq_refl). reflexivity.
Defined.

(** C2 as first stated fails: the income is absent, so read as 0, and
    the exception raised is about the debt field, which is missing or
    holds text; the code has no error of its own for the income. *)
Lemma C2_zero_income_other_error :
  is_zero_number (gross_income_of application_without_debt) = true
  /\ evaluate_application sample_now application_without_debt
                          application_without_debt
     = Raise (KeyError "Total Monthly Debt Obligations")
  /\ is_zero_number (gross_income_of application_text_debt) = true
  /\ evaluate_application sample_now application_text_debt
                          application_text_debt
     = Raise TypeError.
Proof. repeat split; vm_compute; reflexivity. Qed.

(** Whenever the evaluator returns, the mapping has the nine labels in
    the order of insertion. *)
Lemma evaluate_application_labels (now : datetime) application json_data
    (decision : string) (criteria_evaluation : list (string * bool)) :
  evaluate_application now application json_data
  = Ok (decision, criteria_evaluation) ->
  map fst criteria_evaluation = criteria_labels.
Proof.
  intros H. apply evaluate_application_inv in H
    as (dob & birth & b1 & b2 & b3 & b4 & b5 & b6 & b7 & b9 & _ & _ & -> & _).
  reflexivity.
Qed.

(** C4, amended: for every application with a positive monthly gross
    income that is well formed (every field read is present, the numeric
    ones hold moderate numbers, and the date of birth is a string that
    [strptime] accepts), the evaluator returns, and the mapping it returns
    has exactly nine entries, keyed by the nine labels in their fixed
    order. *)
Theorem C4_well_formed_gives_nine_criteria (now : datetime)
    application json_data :
  well_formed application json_data = true ->
  is_positive_number (gross_income_of json_data) = true ->
  exists (decision : string) (criteria_evaluation : list (string * bool)),
    evaluate_application now application json_data
    = Ok (decision, criteria_evaluation)
    /\ map fst criteria_evaluation = criteria_labels
    /\ length criteria_evaluation = 9%nat.
Proof.
  unfold well_formed, gross_income_of. intros Hwf Hpos.
  rewrite !andb_true_iff in Hwf.
  destruct Hwf as (((((((((Hincome & Hscore) & Hdebt) & Hsector) & Hloans)
                        & Hamount) & Hduration) & Hbankruptcy) & Hdob) & Hresidency).
  assert (exists r, evaluate_application now application json_data = Ok r)
    as [[decision criteria_evaluation] Hr].
  { unfold evaluate_application.
    destruct (extract_from_files json_data) as [gross_income credit_score].
    cbn [fst snd] in *.
    apply field_is_true in Hdebt as (debt & -> & Hdebt).
    apply field_is_true in Hsector as (sector & -> & _).
    apply field_is_true in Hloans as (loans & -> & Hloans).
    apply field_is_true in Hamount as (amount & -> & Hamount).
    apply field_is_true in Hduration as (duration & -> & Hduration).
    apply field_is_true in Hbankruptcy as (bankruptcy & -> & _).
    apply field_is_true in Hdob as (dob & -> & Hdob).
    apply field_is_true in Hresidency as (residency & -> & _).
    cbn [mbind result_bind].
    destruct (truediv_returns debt gross_income Hdebt Hincome Hpos) as [dti ->].
    destruct (ge_returns credit_score (NInt 670) Hscore) as [credit_ok ->].
    destruct (lt_returns loans (NInt 5) Hloans) as [loans_ok ->].
    destruct (limit_returns gross_income Hincome)
      as (annual & limit & -> & Hlimit).
    destruct (ge_returns duration (NInt 2) Hduration) as [duration_ok ->].
    cbn [mbind result_bind]. rewrite Hlimit. cbn [mbind result_bind].
    destruct (le_returns amount limit Hamount) as [amount_ok ->].
    cbn [mbind result_bind].
    unfold parses in Hdob. destruct dob; try discriminate Hdob.
    destruct (strptime _) as [birth_date|]; [|discriminate Hdob].
    cbn [mbind result_bind]. eauto. }
  exists decision, criteria_evaluation. split; [exact Hr|].
  pose proof (evaluate_application_labels _ _ _ _ _ Hr) as Hlabels.
  split; [exact Hlabels|].
  rewrite <- (length_map fst), Hlabels. reflexivity.
Qed.

Lemma C4_well_formed_gives_nine_criteria_witness :
  exists (decision : string) (criteria_evaluation : list (string * bool)),
    evaluate_application sample_now sample_application sample_application
    = Ok (decision, criteria_evaluation)
    /\ map fst criteria_evaluation = criteria_labels
    /\ length criteria_evaluation = 9%nat.
Proof.
  apply (C4_well_formed_gives_nine_criteria
           sample_now sample_application sample_application);
    vm_compute; reflexivity.
Defined.

(** C4 as first stated fails: this application has a positive monthly
    gross income, and the evaluator raises instead of returning a
    mapping, because 30 February 1990 is no date. *)
Lemma C4_positive_income_without_mapping :
  is_positive_number (gross_income_of application_february_30) = true
  /\ evaluate_application sample_now application_february_30
                          application_february_30
     = Raise ValueError.
Proof. split; vm_compute; reflexivity. Qed.

(** C7: when the date of birth parses, the Age entry of the returned
    mapping is true exactly when the difference of the calendar years,
    current year minus year of birth, lies between 18 and 70, both
    included; the month and the day of birth, like those of the current
    date, play no part. *)
Theorem C7_age_is_year_difference (now : datetime) application json_data
    (dob : string) (birth_date : datetime)
    (decision : string) (criteria_evaluation : list (string * bool)) :
  application !! "Date of Birth" = Some (PyStr dob) ->
  strptime (PyStr dob) = Ok birth_date ->
  evaluate_application now application json_data
  = Ok (decision, criteria_evaluation) ->
  exists met : bool,
    lookup_item criteria_evaluation "Age Between 18 and 70" = Some met
    /\ (met = true <-> 18 <= year now - year birth_date <= 70).
Proof.
  intros Hdob Hparse Heval.
  apply evaluate_application_inv in Heval
    as (dob' & birth' & b1 & b2 & b3 & b4 & b5 & b6 & b7 & b9
        & Hget & Hparse' & -> & _).
  rewrite (getitem_lookup _ _ _ Hdob) in Hget. injection Hget as <-.
  rewrite Hparse in Hparse'. injection Hparse' as <-.
  eexists. split; [reflexivity|]. lia.
Qed.

Lemma C7_age_is_year_difference_witness :
  exists met : bool,
    lookup_item nine_of_nine "Age Between 18 and 70" = Some met
    /\ (met = true <-> 18 <= 2025 - 1990 <= 70).
Proof.
  apply (C7_age_is_year_difference
           sample_now sample_application sample_application "15/06/1990"
           {| year := 1990; month := 6; day := 15 |} "Approved" nine_of_nine);
    vm_compute; reflexivity.
Defined.

(** C9: there is an application with a positive monthly gross income
    whose date of birth is a string that does not parse as
    day/month/year, and on it the evaluator raises [ValueError] instead of
    returning a mapping, whatever the current date; whereas a sector
    outside the preferred list only makes its criterion false. *)
Theorem C9_unparsable_birth_date_raises :
  (is_positive_number (gross_income_of application_iso_birth) = true
   /\ application_iso_birth !! "Date of Birth" = Some (PyStr "1990-06-15")
   /\ strptime (PyStr "1990-06-15") = Raise ValueError
   /\ forall now : datetime,
        evaluate_application now application_iso_birth application_iso_birth
        = Raise ValueError)
  /\ (application_retail !! "Sector of Employment" = Some (PyStr "Retail")
      /\ evaluate_application sample_now application_retail application_retail
         = Ok ("Approved", all_but_sector)
      /\ lookup_item all_but_sector "Sector of Employment in Preferred List"
         = Some false).
Proof.
  repeat split; intros; vm_compute; reflexivity.
Qed.

(** The decision returned is the aggregate of the mapping returned. *)
Lemma evaluate_application_decision (now : datetime) application json_data
    (decision : string) (criteria_evaluation : list (string * bool)) :
  evaluate_application now application json_data
  = Ok (decision, criteria_evaluation) ->
  decision = Aggregator.decision criteria_evaluation
  /\ (decision = "Approved" <-> (8 <= count_true criteria_evaluation)%nat).
Proof.
  intros H. apply evaluate_application_inv in H
    as (dob & birth & b1 & b2 & b3 & b4 & b5 & b6 & b7 & b9 & _ & _ & _ & ->).
  split; [reflexivity | apply decision_approved].
Qed.

(** The end-to-end examples of the specification. *)
Example all_nine_met_is_approved :
  evaluate_application sample_now sample_application sample_application
  = Ok ("Approved", nine_of_nine).
Proof. vm_compute. reflexivity. Qed.

Example seven_met_is_declined :
  exists criteria_evaluation : list (string * bool),
    evaluate_application sample_now application_declined application_declined
    = Ok ("Declined", criteria_evaluation)
    /\ count_true criteria_evaluation = 7%nat.
Proof. eexists. split; vm_compute; reflexivity. Qed.

Example eight_met_is_approved :
  decision eight_of_nine = "Approved" /\ count_true eight_of_nine = 8%nat.
Proof. split; reflexivity. Qed.

(** Age is a difference of calendar years: seventeen years and a few
    months old, and the criterion is met. *)
Example age_counts_calendar_years :
  exists (decision : string) (criteria_evaluation : list (string * bool)),
    evaluate_application sample_now application_born_2007 application_born_2007
    = Ok (decision, criteria_evaluation)
    /\ lookup_item criteria_evaluation "Age Between 18 and 70" = Some true.
Proof. do 2 eexists. split; vm_compute; reflexivity. Qed.

(** The evaluator reads the clock for its year alone. *)
Lemma evaluate_application_year (now1 now2 : datetime) application json_data :
  year now1 = year now2 ->
  evaluate_application now1 application json_data
  = evaluate_application now2 application json_data.
Proof.
  intros H. unfold evaluate_application. rewrite H. reflexivity.
Qed.

End EvaluationFacts.

(** ** Application processing *)

Section ProcessingFacts.

Variable repr : gmap string pyval -> string.

Implicit Types application : gmap string pyval.

(** Two clients that give the same answers explain alike. *)
Lemma generate_explanation_ext (create1 create2 : completions_api)
    application (decision : string) (criteria_evaluation : list (string * bool)) :
  (forall (model prompt : string) (max_tokens : Z),
      create1 model prompt max_tokens = create2 model prompt max_tokens) ->
  generate_explanation repr create1 application decision criteria_evaluation
  = generate_explanation repr create2 application decision criteria_evaluation.
Proof. intros H. unfold generate_explanation. rewrite H. reflexivity. Qed.

(** Two runs with clocks in the same year and clients that answer alike
    end alike. *)
Lemma process_application_ext
    (create1 create2 : completions_api) (now1 now2 : datetime) application :
  year now1 = year now2 ->
  (forall (model prompt : string) (max_tokens : Z),
      create1 model prompt max_tokens = create2 model prompt max_tokens) ->
  process_application repr create1 now1 application
  = process_application repr create2 now2 application.
Proof.
  intros Hyear Hcreate. unfold process_application.
  rewrite (evaluate_application_year now1 now2 _ _ Hyear).
  destruct (evaluate_application now2 application application)
    as [[decision criteria_evaluation]|e]; [|reflexivity].
  cbn [mbind result_bind].
  rewrite (generate_explanation_ext create1 create2 _ _ _ Hcreate).
  reflexivity.
Qed.

(** X2: an exception of the evaluator leaves [process_application]
    unchanged, whatever the client would have answered: the processor
    does not catch it. *)
Lemma process_application_propagates (create : completions_api)
    (now : datetime) application (e : exn) :
  evaluate_application now application application = Raise e ->
  process_application repr create now application = Raise e.
Proof. intros H. unfold process_application. rewrite H. reflexivity. Qed.

End ProcessingFacts.

Lemma process_application_propagates_witness :
  process_application sample_repr client_timing_out sample_now
                      application_without_income
  = Raise ZeroDivisionError.
Proof.
  apply process_application_propagates. vm_compute. reflexivity.
Defined.

(** A run that returns: the record has the three keys. *)
Example process_application_sample :
  exists record : gmap string pyval,
    process_application sample_repr (client_answering "Eight of nine are met.")
                        sample_now sample_application
    = Ok record
    /\ record !! "application_id" = Some (PyStr "65a1f0")
    /\ record !! "result" = Some (PyStr "Approved")
    /\ record !! "explanation" = Some (PyStr "Eight of nine are met..").
Proof. eexists. repeat split; vm_compute; reflexivity. Qed.

(** Without an [_id] the run raises after the explanation was made. *)
Example process_application_without_id :
  process_application sample_repr client_timing_out sample_now
                      (delete "_id" sample_application)
  = Raise (KeyError "_id").
Proof. vm_compute. reflexivity. Qed.

(** ** Strings *)

Section StringFacts.

Implicit Types s t u : string.

Lemma append_cons (c : ascii) s t : String c s +:+ t = String c (s +:+ t).
Proof. reflexivity. Qed.

Lemma append_empty_r s : s +:+ "" = s.
Proof. induction s as [|c s IH]; [reflexivity|]. rewrite append_cons, IH. reflexivity. Qed.

Lemma append_assoc s t u : (s +:+ t) +:+ u = s +:+ (t +:+ u).
Proof.
  induction s as [|c s IH]; [reflexivity|]. rewrite !append_cons, IH. reflexivity.
Qed.

Lemma length_append s t :
  String.length (s +:+ t) = (String.length s + String.length t)%nat.
Proof.
  induction s as [|c s IH]; [reflexivity|].
  rewrite append_cons. cbn [String.length]. rewrite IH. reflexivity.
Qed.

End StringFacts.

(** ** [format_url] *)

Section UrlFacts.

Implicit Types url : string.

Lemma format_url_cases url :
  (Str.startswith url "http://" || Str.startswith url "https://" = true
   /\ format_url url = url)
  \/ (Str.startswith url "http://" || Str.startswith url "https://" = false
      /\ format_url url = "https:" +:+ url).
Proof.
  unfold format_url.
  destruct (Str.startswith url "http://" || Str.startswith url "https://");
    cbn [negb]; auto.
Qed.

(** X3: what [format_url] returns starts with [http://] or [https://]
    exactly when its argument starts with one of the two or with [//]
    (on any other argument the result is [https:] followed by the
    argument, without the two slashes); it leaves its argument unchanged
    exactly when that starts with [http://] or [https://]; and applying
    it twice gives the same as applying it once exactly when the argument
    starts with one of the two or with [//]. *)
Theorem format_url_prefix_and_fixed_points url :
  (Str.startswith (format_url url) "http://"
   || Str.startswith (format_url url) "https://"
   = Str.startswith url "http://" || Str.startswith url "https://"
     || Str.startswith url "//")
  /\ (format_url url = url
      <-> Str.startswith url "http://" || Str.startswith url "https://" = true)
  /\ (format_url (format_url url) = format_url url
      <-> Str.startswith url "http://" || Str.startswith url "https://"
          || Str.startswith url "//" = true).
Proof.
  assert (Hprefix : Str.startswith (format_url url) "http://"
                    || Str.startswith (format_url url) "https://"
                    = Str.startswith url "http://"
                      || Str.startswith url "https://"
                      || Str.startswith url "//").
  { destruct (format_url_cases url) as [[E ->]|[E ->]]; rewrite E.
    - reflexivity.
    - destruct url as [|a [|b r]]; reflexivity. }
  assert (Hfix : forall u,
             format_url u = u
             <-> Str.startswith u "http://" || Str.startswith u "https://" = true).
  { intros u. destruct (format_url_cases u) as [[E ->]|[E ->]]; rewrite E.
    - done.
    - split; [|done]. intros H. apply (f_equal String.length) in H.
      rewrite length_append in H. cbn in H. lia. }
  split; [exact Hprefix|]. split; [apply Hfix|].
  rewrite Hfix, Hprefix. reflexivity.
Qed.

End UrlFacts.

Example format_url_examples :
  format_url "example.com/a" = "https:example.com/a"
  /\ format_url "//example.com/a" = "https://example.com/a"
  /\ format_url "http://example.com/a" = "http://example.com/a"
  /\ format_url (format_url "example.com/a") = "https:https:example.com/a".
Proof. repeat split; reflexivity. Qed.

(** ** Splitting on ". " *)

Section SplitFacts.

Implicit Types s t cur : string.

(** Induction on strings that may step over two characters. *)
Lemma string_ind2 (P : string -> Prop) :
  P "" ->
  (forall c, P (String c "")) ->
  (forall c d s, P s -> P (String d s) -> P (String c (String d s))) ->
  forall s, P s.
Proof.
  intros H0 H1 H2 s.
  assert (H : P s /\ forall c, P (String c s)); [|apply H].
  induction s as [|d s [IH1 IH2]]; split; auto.
Qed.

Lemma fragments_at_separator s :
  at_separator (String "." (String " " s)) = true
  /\ fragments (String "." (String " " s)) = "" :: fragments s.
Proof. split; reflexivity. Qed.

Lemma fragments_step (c : ascii) s :
  at_separator (String c s) = false ->
  fragments (String c s) = push c (fragments s).
Proof.
  destruct s as [|d s]; [reflexivity|]. cbn [at_separator fragments].
  intros ->. reflexivity.
Qed.

Lemma at_separator_true (c : ascii) s :
  at_separator (String c s) = true ->
  exists s', c = "."%char /\ s = String " " s'.
Proof.
  destruct s as [|d s]; [discriminate|]. cbn [at_separator].
  intros [Hc Hd]%andb_prop. apply Ascii.eqb_eq in Hc, Hd. subst. eauto.
Qed.

Lemma fragments_nonempty s : exists f fs, fragments s = f :: fs.
Proof.
  induction s as [| |c d s IH1 IH2] using string_ind2.
  - cbn. eauto.
  - cbn. eauto.
  - destruct (at_separator (String c (String d s))) eqn:E.
    + apply at_separator_true in E as (s' & -> & [= -> ->]).
      cbn. eauto.
    + rewrite (fragments_step _ _ E). destruct IH2 as (f & fs & ->). cbn. eauto.
Qed.

Lemma split_scan_step (sep cur : string) (c : ascii) s :
  Str.split_scan sep 0 cur (String c s)
  = if Str.startswith (String c s) sep
    then cur :: Str.split_scan sep (Nat.pred (String.length sep)) "" s
    else Str.split_scan sep 0 (cur +:+ String c "") s.
Proof. reflexivity. Qed.

(** [Str.split _ ". "] computes the fragments. *)
Lemma split_scan_fragments s : forall cur,
  Str.split_scan ". " 0 cur s
  = match fragments s with
    | f :: fs => (cur +:+ f) :: fs
    | [] => []
    end.
Proof.
  induction s as [| |c d s IH1 IH2] using string_ind2; intros cur.
  - cbn. rewrite append_empty_r. reflexivity.
  - cbn [Str.split_scan Str.startswith fragments push].
    rewrite andb_false_r. reflexivity.
  - destruct (at_separator (String c (String d s))) eqn:E.
    + apply at_separator_true in E as (s' & -> & [= -> ->]).
      assert (Str.split_scan ". " 0 cur (String "." (String " " s'))
              = cur :: Str.split_scan ". " 0 "" s') as ->.
      { cbn. destruct s'; reflexivity. }
      rewrite IH1. cbn [fragments Ascii.eqb Bool.eqb andb].
      rewrite append_empty_r.
      destruct (fragments_nonempty s') as (f & fs & ->). reflexivity.
    + rewrite (fragments_step _ _ E).
      assert (Hs : Str.startswith (String c (String d s)) ". "
                   = at_separator (String c (String d s))).
      { cbn [Str.startswith at_separator].
        rewrite (Ascii.eqb_sym "." c), (Ascii.eqb_sym " " d).
        destruct s; cbn [Str.startswith]; rewrite andb_true_r; reflexivity. }
      rewrite E in Hs.
      rewrite split_scan_step, Hs, IH2.
      destruct (fragments_nonempty (String d s)) as (f & fs & ->).
      cbn [push]. rewrite append_assoc. reflexivity.
Qed.

Lemma split_fragments s : Str.split s ". " = fragments s.
Proof.
  unfold Str.split. rewrite split_scan_fragments.
  destruct (fragments_nonempty s) as (f & fs & ->). reflexivity.
Qed.


Lemma join_cons (f : string) (fs : list string) :
  Str.join ". " (f :: fs)
  = f +:+ match fs with [] => "" | _ :: _ => ". " +:+ Str.join ". " fs end.
Proof. destruct fs; cbn [Str.join]; [rewrite append_empty_r|]; reflexivity. Qed.

Lemma join_push (c : ascii) (l : list string) :
  l <> [] -> Str.join ". " (push c l) = String c (Str.join ". " l).
Proof.
  destruct l as [|f fs]; [done|]. intros _. cbn [push].
  rewrite !join_cons. reflexivity.
Qed.

Lemma firstn_push (n : nat) (c : ascii) (l : list string) :
  l <> [] -> firstn (S n) (push c l) = push c (firstn (S n) l).
Proof. destruct l as [|f fs]; [done|]. reflexivity. Qed.

(** Joining the fragments gives the text back. *)
Lemma join_fragments s : Str.join ". " (fragments s) = s.
Proof.
  induction s as [| |c d s IH1 IH2] using string_ind2; try reflexivity.
  destruct (at_separator (String c (String d s))) eqn:E.
  - apply at_separator_true in E as (s' & -> & [= -> ->]).
    destruct (fragments_at_separator s') as [_ ->].
    rewrite join_cons. destruct (fragments_nonempty s') as (f & fs & Hf).
    rewrite Hf, <- Hf, IH1. reflexivity.
  - rewrite (fragments_step _ _ E).
    destruct (fragments_nonempty (String d s)) as (f & fs & Hf).
    rewrite join_push by (rewrite Hf; done). rewrite IH2. reflexivity.
Qed.

(** The first fragments, joined, are a beginning of the text. *)
Lemma join_firstn_prefix s : forall n : nat,
  is_prefix (Str.join ". " (firstn (S n) (fragments s))) s.
Proof.
  induction s as [| |c d s IH1 IH2] using string_ind2; intros n.
  - exists "". cbn [fragments firstn]. rewrite firstn_nil. reflexivity.
  - exists "". cbn [fragments push firstn]. rewrite firstn_nil. reflexivity.
  - destruct (at_separator (String c (String d s))) eqn:E.
    + apply at_separator_true in E as (s' & -> & [= -> ->]).
      destruct (fragments_at_separator s') as [_ ->].
      cbn [firstn]. destruct n as [|n].
      * exists (String "." (String " " s')). reflexivity.
      * destruct (IH1 n) as [rest Hrest].
        destruct (fragments_nonempty s') as (f & fs & Hf).
        rewrite join_cons. rewrite Hf in *. cbn [firstn] in *.
        exists rest.
        transitivity (String "." (String " "
                        (Str.join ". " (f :: firstn n fs) +:+ rest)));
          [rewrite <- Hrest|]; reflexivity.
    + rewrite (fragments_step _ _ E).
      destruct (fragments_nonempty (String d s)) as (f & fs & Hf).
      rewrite firstn_push by (rewrite Hf; done).
      rewrite join_push by (rewrite Hf; done).
      destruct (IH2 n) as [rest Hrest]. exists rest.
      rewrite append_cons. f_equal. exact Hrest.
Qed.

Lemma at_separator_prefix (c : ascii) (p s : string) :
  is_prefix p s ->
  at_separator (String c s) = false -> at_separator (String c p) = false.
Proof.
  intros [rest ->]. destruct p as [|d p]; [reflexivity|].
  rewrite append_cons. exact id.
Qed.

(** Splitting the first fragments, joined, gives them back. *)
Lemma fragments_join_firstn s : forall n : nat,
  fragments (Str.join ". " (firstn (S n) (fragments s)))
  = firstn (S n) (fragments s).
Proof.
  induction s as [| |c d s IH1 IH2] using string_ind2; intros n.
  - cbn [fragments firstn]. rewrite firstn_nil. reflexivity.
  - cbn [fragments push firstn]. rewrite firstn_nil. reflexivity.
  - destruct (at_separator (String c (String d s))) eqn:E.
    + apply at_separator_true in E as (s' & -> & [= -> ->]).
      destruct (fragments_at_separator s') as [_ ->].
      cbn [firstn]. destruct n as [|n]; [reflexivity|].
      rewrite join_cons.
      destruct (fragments_nonempty s') as (f & fs & Hf).
      specialize (IH1 n). rewrite Hf in *. cbn [firstn] in *.
      change ("" +:+ ". " +:+ Str.join ". " (f :: firstn n fs))
        with (String "." (String " " (Str.join ". " (f :: firstn n fs)))).
      destruct (fragments_at_separator (Str.join ". " (f :: firstn n fs)))
        as [_ ->].
      rewrite IH1. reflexivity.
    + rewrite (fragments_step _ _ E).
      destruct (fragments_nonempty (String d s)) as (f & fs & Hf).
      rewrite firstn_push by (rewrite Hf; done).
      rewrite join_push by (rewrite Hf; done).
      rewrite fragments_step
        by (eapply at_separator_prefix; [apply join_firstn_prefix | exact E]).
      rewrite IH2. reflexivity.
Qed.

(** A period at the end adds no fragment. *)
Lemma fragments_append_period s :
  length (fragments (s +:+ ".")) = length (fragments s).
Proof.
  induction s as [| |c d s IH1 IH2] using string_ind2.
  - reflexivity.
  - change (String c "" +:+ ".") with (String c ".").
    rewrite fragments_step; [reflexivity|].
    cbn [at_separator]. destruct (Ascii.eqb c "."); reflexivity.
  - destruct (at_separator (String c (String d s))) eqn:E.
    + apply at_separator_true in E as (s' & -> & [= -> ->]).
      rewrite !append_cons.
      destruct (fragments_at_separator s') as [_ ->].
      destruct (fragments_at_separator (s' +:+ ".")) as [_ ->].
      cbn [length]. rewrite IH1. reflexivity.
    + rewrite append_cons, (fragments_step _ _ E).
      rewrite fragments_step by (rewrite append_cons; exact E).
      destruct (fragments_nonempty (String d s)) as (f & fs & Hf).
      destruct (fragments_nonempty (String d s +:+ ".")) as (f' & fs' & Hf').
      rewrite Hf, Hf' in *. exact IH2.
Qed.

End SplitFacts.

(** ** The explanation as a text *)

Section ExplanationText.

Variable repr : gmap string pyval -> string.
Variable create : completions_api.

Implicit Types application : gmap string pyval.
Implicit Types criteria_evaluation : list (string * bool).

Lemma strip_all_space (s : string) : all_space s = true -> Str.strip s = "".
Proof.
  unfold Str.strip. induction s as [|c s IH]; [reflexivity|].
  cbn [all_space Str.lstrip]. intros [-> Hs]%andb_prop. auto.
Qed.

Lemma concise_fragments (t : string) :
  (length (Str.split (Str.join ". " (firstn 3 (Str.split t ". ")) +:+ ".") ". ")
   <= 3)%nat.
Proof.
  rewrite !split_fragments, fragments_append_period.
  rewrite (fragments_join_firstn t 2). apply firstn_le_length.
Qed.

(** X4: whatever the client answers, the explanation returned has at
    most three fragments between occurrences of ". ". *)
Theorem explanation_has_at_most_three_fragments application
    (decision : string) criteria_evaluation :
  exists explanation : string,
    generate_explanation repr create application decision criteria_evaluation
    = Ok explanation
    /\ (1 <= length (Str.split explanation ". ") <= 3)%nat.
Proof.
  assert (Hfallback : (1 <= length (Str.split "Explanation not available" ". ")
                       <= 3)%nat) by (vm_compute; lia).
  unfold generate_explanation, try_except, index, text_strip.
  destruct (create _ _ _) as [[[|[[t|]] rest]]|e]; cbn; eauto.
  eexists. split; [reflexivity|]. split; [|apply concise_fragments].
  rewrite split_fragments.
  destruct (fragments_nonempty
              (Str.join ". " (firstn 3 (Str.split (Str.strip t) ". ")) +:+ "."))
    as (f & fs & ->).
  cbn. lia.
Qed.

(** X5: an answer is cut at an occurrence of ". " or not at all: the
    explanation is a beginning of the stripped answer followed by one
    period, and it is the whole stripped answer followed by one period
    when that has at most three fragments. *)
Theorem explanation_is_a_beginning application (decision : string)
    criteria_evaluation (answer : string) (rest : list choice) :
  create "gpt-3.5-turbo-instruct"
         (prompt repr application decision criteria_evaluation) 150
  = Ok {| choices := {| text := Some answer |} :: rest |} ->
  exists kept : string,
    generate_explanation repr create application decision criteria_evaluation
    = Ok (kept +:+ ".")
    /\ is_prefix kept (Str.strip answer)
    /\ ((length (Str.split (Str.strip answer) ". ") <= 3)%nat ->
        kept = Str.strip answer).
Proof.
  intros H. rewrite (generate_explanation_answer _ _ _ _ _ _ _ H).
  eexists. split; [reflexivity|]. rewrite split_fragments. split.
  - apply (join_firstn_prefix _ 2).
  - intros Hlen. rewrite firstn_all2 by exact Hlen. apply join_fragments.
Qed.

(** X6: an answer of white space alone, the empty answer included,
    gives the explanation ".". *)
Theorem explanation_of_blank_answer application (decision : string)
    criteria_evaluation (answer : string) (rest : list choice) :
  create "gpt-3.5-turbo-instruct"
         (prompt repr application decision criteria_evaluation) 150
  = Ok {| choices := {| text := Some answer |} :: rest |} ->
  all_space answer = true ->
  generate_explanation repr create application decision criteria_evaluation
  = Ok ".".
Proof.
  intros H Hblank. rewrite (generate_explanation_answer _ _ _ _ _ _ _ H).
  rewrite (strip_all_space _ Hblank). reflexivity.
Qed.

End ExplanationText.

Lemma explanation_is_a_beginning_witness :
  exists kept : string,
    generate_explanation sample_repr
      (client_answering "One. Two. Three. Four. Five.")
      sample_application "Approved" eight_of_nine
    = Ok (kept +:+ ".")
    /\ is_prefix kept "One. Two. Three. Four. Five."
    /\ ((length (Str.split "One. Two. Three. Four. Five." ". ") <= 3)%nat ->
        kept = "One. Two. Three. Four. Five.").
Proof.
  exact (explanation_is_a_beginning sample_repr
           (client_answering "One. Two. Three. Four. Five.")
           sample_application "Approved" eight_of_nine
           "One. Two. Three. Four. Five." [] eq_refl).
Defined.

Lemma explanation_of_blank_answer_witness :
  generate_explanation sample_repr (client_answering "   ")
                       sample_application "Approved" eight_of_nine
  = Ok ".".
Proof.
  exact (explanation_of_blank_answer sample_repr (client_answering "   ")
           sample_application "Approved" eight_of_nine "   " []
           eq_refl eq_refl).
Defined.

(** ** The criteria one by one *)

Section CriteriaFacts.

Implicit Types application json_data : gmap string pyval.

Ltac step_in H :=
  match type of H with
  | match ?x with Ok _ => _ | Raise _ => _ end = _ =>
      let E := fresh "E" in destruct x eqn:E; [ cbv beta in H | discriminate H ]
  end.

(** Every step of a returning evaluation, with what each one gave. *)
Lemma evaluate_application_steps (now : datetime) application json_data
    (decision : string) (criteria_evaluation : list (string * bool)) :
  evaluate_application now application json_data
  = Ok (decision, criteria_evaluation) ->
  exists (debt : pyval) (dti : spec_float) (credit_ok : bool) (sector loans : pyval)
         (loans_ok : bool) (amount : pyval) (annual limit : number)
         (amount_ok : bool) (duration : pyval) (duration_ok : bool)
         (bankruptcy dob : pyval) (birth_date : datetime) (residency : pyval),
    (application !! "Total Monthly Debt Obligations" = Some debt
     /\ truediv debt (gross_income_of json_data) = Ok dti
     /\ ge (snd (extract_from_files json_data)) (NInt 670) = Ok credit_ok
     /\ application !! "Sector of Employment" = Some sector
     /\ application !! "Number of Existing Loans" = Some loans
     /\ lt loans (NInt 5) = Ok loans_ok)
    /\ (application !! "Desired Loan Amount" = Some amount
        /\ mul (NInt 12) (gross_income_of json_data) = Ok annual
        /\ num_mul (NFloat f0_6) annual = Ok limit
        /\ le amount limit = Ok amount_ok
        /\ application !! "Duration at Current Job" = Some duration
        /\ ge duration (NInt 2) = Ok duration_ok)
    /\ (application !! "History of Bankruptcy" = Some bankruptcy
        /\ application !! "Date of Birth" = Some dob
        /\ strptime dob = Ok birth_date
        /\ application !! "Residency Status" = Some residency)
    /\ criteria_evaluation
       = [ ("Debt-to-Income Ratio <= 0.43", SFleb dti f0_43);
           ("Credit Score >= 670", credit_ok);
           ("Sector of Employment in Preferred List",
            in_strs sector ["Government Jobs"; "Healthcare"; "IT"; "Finance"]);
           ("Number of Existing Loans < 5", loans_ok);
           ("Loan Amount <= 60% of Annual Income", amount_ok);
           ("Duration at Current Job >= 2 Years", duration_ok);
           ("No History of Bankruptcy", eq_str bankruptcy "No");
           ("Age Between 18 and 70",
            (18 <=? year now - year birth_date)
            && (year now - year birth_date <=? 70));
           ("Residency Status as Permanent Resident or Citizen",
            in_strs residency ["Permanent Resident"; "Citizen"]) ].
Proof.
  intros H. unfold evaluate_application, gross_income_of in *.
  destruct (extract_from_files json_data) as [gross_income credit_score].
  unfold mbind, result_bind in H. cbv beta iota zeta in H. cbn [fst snd].
  repeat step_in H.
  injection H as _ <-.
  repeat match goal with
         | E : getitem _ _ = Ok _ |- _ => apply getitem_inv in E
         end.
  do 16 eexists. repeat split; eauto.
Qed.

Lemma eq_str_true (x : pyval) (s : string) :
  eq_str x s = true <-> x = PyStr s.
Proof.
  destruct x; cbn; try (split; [discriminate | intros [=]]).
  rewrite String.eqb_eq. split; [intros -> | intros [= ->]]; reflexivity.
Qed.

Lemma in_strs_true (x : pyval) (l : list string) :
  in_strs x l = true <-> exists s : string, x = PyStr s /\ In s l.
Proof.
  unfold in_strs. rewrite existsb_exists. split.
  - intros (s & Hin & Heq). apply eq_str_true in Heq. eauto.
  - intros (s & -> & Hin). exists s. split; [exact Hin | apply eq_str_true; reflexivity].
Qed.

Lemma Some_true_iff (b : bool) : Some b = Some true <-> b = true.
Proof. split; [intros [= ->] | intros ->]; reflexivity. Qed.

(** X7: in the mapping the evaluator returns, each of the three criteria
    on words is met exactly when the field holds one of the accepted
    strings, letter for letter; any other value, of any type, leaves the
    criterion unmet and raises nothing. *)
Theorem word_criteria_need_exact_strings (now : datetime) application json_data
    (decision : string) (criteria_evaluation : list (string * bool)) :
  evaluate_application now application json_data
  = Ok (decision, criteria_evaluation) ->
  (lookup_item criteria_evaluation "Sector of Employment in Preferred List"
   = Some true
   <-> exists s : string,
         application !! "Sector of Employment" = Some (PyStr s)
         /\ In s ["Government Jobs"; "Healthcare"; "IT"; "Finance"])
  /\ (lookup_item criteria_evaluation "No History of Bankruptcy" = Some true
      <-> application !! "History of Bankruptcy" = Some (PyStr "No"))
  /\ (lookup_item criteria_evaluation
                  "Residency Status as Permanent Resident or Citizen"
      = Some true
      <-> exists s : string,
            application !! "Residency Status" = Some (PyStr s)
            /\ In s ["Permanent Resident"; "Citizen"]).
Proof.
  intros H. apply evaluate_application_steps in H
    as (debt & dti & credit_ok & sector & loans & loans_ok & amount & annual
        & limit & amount_ok & duration & duration_ok & bankruptcy & dob
        & birth_date & residency
        & (_ & _ & _ & Hsector & _ & _) & _
        & (Hbankruptcy & _ & _ & Hresidency) & ->).
  cbn [lookup_item String.eqb Ascii.eqb Bool.eqb].
  rewrite Hsector, Hbankruptcy, Hresidency.
  rewrite !Some_true_iff, !in_strs_true, eq_str_true.
  repeat split.
  - intros (s & -> & Hin). eauto.
  - intros (s & [= ->] & Hin). eauto.
  - intros ->. reflexivity.
  - intros [= ->]. reflexivity.
  - intros (s & -> & Hin). eauto.
  - intros (s & [= ->] & Hin). eauto.
Qed.


Lemma ge_int (n c : Z) (b : bool) :
  ge (PyInt n) (NInt c) = Ok b -> b = (c <=? n).
Proof.
  cbn. intros [= <-]. destruct (Z.compare_spec n c), (Z.leb_spec c n);
    try reflexivity; lia.
Qed.

Lemma lt_int (n c : Z) (b : bool) :
  lt (PyInt n) (NInt c) = Ok b -> b = (n <? c).
Proof.
  cbn. intros [= <-]. destruct (Z.compare_spec n c), (Z.ltb_spec n c);
    try reflexivity; lia.
Qed.

(** X8: in the mapping the evaluator returns, an integer credit score
    meets its criterion exactly from 670 up, an integer number of loans
    exactly below 5, an integer duration exactly from 2 up; and a
    supporting document without credit score leaves the criterion
    unmet. *)
Theorem integer_criteria_are_thresholds (now : datetime) application json_data
    (decision : string) (criteria_evaluation : list (string * bool)) :
  evaluate_application now application json_data
  = Ok (decision, criteria_evaluation) ->
  (forall n : Z,
      get json_data "Credit Score" (PyInt 0) = PyInt n ->
      lookup_item criteria_evaluation "Credit Score >= 670" = Some (670 <=? n))
  /\ (json_data !! "Credit Score" = None ->
      lookup_item criteria_evaluation "Credit Score >= 670" = Some false)
  /\ (forall n : Z,
         application !! "Number of Existing Loans" = Some (PyInt n) ->
         lookup_item criteria_evaluation "Number of Existing Loans < 5"
         = Some (n <? 5))
  /\ (forall n : Z,
         application !! "Duration at Current Job" = Some (PyInt n) ->
         lookup_item criteria_evaluation "Duration at Current Job >= 2 Years"
         = Some (2 <=? n)).
Proof.
  intros H. apply evaluate_application_steps in H
    as (debt & dti & credit_ok & sector & loans & loans_ok & amount & annual
        & limit & amount_ok & duration & duration_ok & bankruptcy & dob
        & birth_date & residency
        & (_ & _ & Hcredit & _ & Hloans & Hlt) & (_ & _ & _ & _ & Hduration & Hge)
        & _ & ->).
  cbn [lookup_item String.eqb Ascii.eqb Bool.eqb].
  unfold extract_from_files in Hcredit. cbn [snd] in Hcredit.
  assert (Hscore : forall n : Z,
             get json_data "Credit Score" (PyInt 0) = PyInt n ->
             Some credit_ok = Some (670 <=? n)).
  { intros n Hn. rewrite Hn in Hcredit. f_equal. exact (ge_int _ _ _ Hcredit). }
  repeat split.
  - exact Hscore.
  - intros Hnone. apply (Hscore 0). unfold get. rewrite Hnone. reflexivity.
  - intros n Hn. rewrite Hloans in Hn. injection Hn as ->.
    f_equal. exact (lt_int _ _ _ Hlt).
  - intros n Hn. rewrite Hduration in Hn. injection Hn as ->.
    f_equal. exact (ge_int _ _ _ Hge).
Qed.

Lemma truediv_inv (v w : pyval) (q : spec_float) :
  truediv v w = Ok q ->
  is_number v = true /\ is_number w = true /\ is_zero_number w = false.
Proof.
  unfold truediv, is_number, is_zero_number.
  destruct (as_number v) as [[a|x]|], (as_number w) as [[b|y]|];
    try discriminate; intros H; repeat split.
  - unfold int_truediv in H. destruct (b =? 0); [discriminate | reflexivity].
  - destruct (float_of_int a); [|discriminate]. cbn in H.
    unfold float_truediv in H. destruct (is_zero y); [discriminate | reflexivity].
  - destruct (Z.eqb_spec b 0) as [->|]; [|reflexivity]. discriminate H.
  - unfold float_truediv in H. destruct (is_zero y); [discriminate | reflexivity].
Qed.

Lemma ge_inv (v : pyval) (c : number) (b : bool) :
  ge v c = Ok b -> is_number v = true.
Proof. unfold ge, is_number. destruct (as_number v); [reflexivity | discriminate]. Qed.

Lemma lt_inv (v : pyval) (c : number) (b : bool) :
  lt v c = Ok b -> is_number v = true.
Proof. unfold lt, is_number. destruct (as_number v); [reflexivity | discriminate]. Qed.

Lemma le_inv (v : pyval) (c : number) (b : bool) :
  le v c = Ok b -> is_number v = true.
Proof. unfold le, is_number. destruct (as_number v); [reflexivity | discriminate]. Qed.

Lemma strptime_parses (v : pyval) (d : datetime) :
  strptime v = Ok d -> parses v = true.
Proof.
  unfold parses. destruct v; try discriminate. intros ->. reflexivity.
Qed.

(** X9: the evaluator returns only on readable input: the eight fields
    of the application it subscripts are present; debt, loans, amount
    and duration are numbers; the income and the credit score, each read
    as [0] when absent from the supporting document, are numbers, and
    the income is not zero; the date of birth is a string that
    [strptime] accepts. *)
Theorem evaluate_application_returns_only_if_readable (now : datetime)
    application json_data (decision : string)
    (criteria_evaluation : list (string * bool)) :
  evaluate_application now application json_data
  = Ok (decision, criteria_evaluation) ->
  readable application json_data = true.
Proof.
  intros H. apply evaluate_application_steps in H
    as (debt & dti & credit_ok & sector & loans & loans_ok & amount & annual
        & limit & amount_ok & duration & duration_ok & bankruptcy & dob
        & birth_date & residency
        & (Hdebt & Hdiv & Hcredit & Hsector & Hloans & Hlt)
        & (Hamount & _ & _ & Hle & Hduration & Hge)
        & (Hbankruptcy & Hdob & Hparse & Hresidency) & _).
  apply truediv_inv in Hdiv as (Hd & Hi & Hz).
  unfold readable, field_is.
  rewrite Hdebt, Hsector, Hloans, Hamount, Hduration, Hbankruptcy, Hdob,
    Hresidency.
  rewrite Hd, Hi, Hz, (ge_inv _ _ _ Hcredit), (lt_inv _ _ _ Hlt),
    (le_inv _ _ _ Hle), (ge_inv _ _ _ Hge), (strptime_parses _ _ Hparse).
  reflexivity.
Qed.

End CriteriaFacts.

Lemma word_criteria_need_exact_strings_witness :
  lookup_item all_but_sector "Sector of Employment in Preferred List" = Some true
  <-> exists s : string,
        application_retail !! "Sector of Employment" = Some (PyStr s)
        /\ In s ["Government Jobs"; "Healthcare"; "IT"; "Finance"].
Proof.
  refine (proj1 (word_criteria_need_exact_strings
                   sample_now application_retail application_retail
                   "Approved" all_but_sector _)).
  vm_compute. reflexivity.
Defined.

Lemma integer_criteria_are_thresholds_witness :
  lookup_item nine_of_nine "Credit Score >= 670" = Some (670 <=? 700).
Proof.
  refine (proj1 (integer_criteria_are_thresholds
                   sample_now sample_application sample_application
                   "Approved" nine_of_nine _) 700 _);
    vm_compute; reflexivity.
Defined.

Lemma evaluate_application_returns_only_if_readable_witness :
  readable sample_application sample_application = true.
Proof.
  refine (evaluate_application_returns_only_if_readable
            sample_now sample_application sample_application
            "Approved" nine_of_nine _).
  vm_compute. reflexivity.
Defined.

(** ** What the evaluator does not read *)

Section FrameFacts.

Implicit Types application json_data : gmap string pyval.

Lemma getitem_insert_ne application (key k : string) (v : pyval) :
  key <> k -> getitem (<[key := v]> application) k = getitem application k.
Proof. intros H. unfold getitem. rewrite lookup_insert_ne by exact H. reflexivity. Qed.

Lemma get_insert_ne json_data (key k : string) (v dflt : pyval) :
  key <> k -> get (<[key := v]> json_data) k dflt = get json_data k dflt.
Proof. intros H. unfold get. rewrite lookup_insert_ne by exact H. reflexivity. Qed.

(** X10: the evaluator looks at eight fields of the application and two
    of the supporting document; setting any other field, to any value,
    changes neither what it returns nor what it raises. *)
Theorem evaluate_application_ignores_other_fields (now : datetime)
    application json_data (key : string) (v : pyval) :
  (~ In key application_keys ->
   evaluate_application now (<[key := v]> application) json_data
   = evaluate_application now application json_data)
  /\ (~ In key document_keys ->
      evaluate_application now application (<[key := v]> json_data)
      = evaluate_application now application json_data).
Proof.
  split; intros Hkey; unfold evaluate_application, extract_from_files.
  - rewrite !getitem_insert_ne
      by (intros ->; apply Hkey; cbn; tauto).
    reflexivity.
  - rewrite !get_insert_ne by (intros ->; apply Hkey; cbn; tauto).
    reflexivity.
Qed.

End FrameFacts.

Lemma evaluate_application_ignores_other_fields_witness :
  evaluate_application sample_now
    (<["Monthly Net Income" := PyInt 1]> sample_application) sample_application
  = evaluate_application sample_now sample_application sample_application.
Proof.
  apply (proj1 (evaluate_application_ignores_other_fields
                  sample_now sample_application sample_application
                  "Monthly Net Income" (PyInt 1))).
  cbn. intros H. repeat (destruct H as [H|H]; [discriminate H|]). exact H.
Defined.

(** ** The processor and the endpoint *)

Section EndpointFacts.

Variable repr : gmap string pyval -> string.
Variable create : completions_api.
Variable exn_str : exn -> string.

Implicit Types application : gmap string pyval.

Lemma generate_explanation_cases application (decision : string)
    (criteria_evaluation : list (string * bool)) :
  exists explanation : string,
    generate_explanation repr create application decision criteria_evaluation
    = Ok explanation
    /\ (call_failed (create "gpt-3.5-turbo-instruct"
                            (prompt repr application decision criteria_evaluation)
                            150) ->
        explanation = "Explanation not available").
Proof.
  unfold call_failed, generate_explanation, try_except, index, text_strip.
  destruct (create _ _ _) as [[[|[[t|]] rest]]|e]; cbn; eexists;
    (split; [reflexivity|]); intros H; try reflexivity; discriminate H.
Qed.

Lemma decision_of_labels (passed : Z) :
  decision_of passed = "Approved" \/ decision_of passed = "Declined".
Proof. unfold decision_of. destruct (8 <=? passed); auto. Qed.

(** What a returning run of the processor went through. *)
Lemma process_application_inv (now : datetime) application
    (record : gmap string pyval) :
  process_application repr create now application = Ok record ->
  exists (id : pyval) (decision explanation : string)
         (criteria_evaluation : list (string * bool)),
    evaluate_application now application application
    = Ok (decision, criteria_evaluation)
    /\ generate_explanation repr create application decision criteria_evaluation
       = Ok explanation
    /\ application !! "_id" = Some id
    /\ record = processed_record id decision explanation.
Proof.
  unfold process_application. intros H.
  destruct (evaluate_application now application application)
    as [[decision criteria_evaluation]|e] eqn:Heval; [|discriminate H].
  cbn [mbind result_bind] in H.
  destruct (generate_explanation _ _ _ _ _) as [explanation|e] eqn:Hgen;
    [|discriminate H].
  cbn [mbind result_bind] in H. unfold getitem in H.
  destruct (application !! "_id") as [id|] eqn:Hid; [|discriminate H].
  injection H as <-. exists id, decision, explanation, criteria_evaluation.
  repeat split; try reflexivity; assumption.
Qed.

(** X11: the record the processor returns has the application's [_id]
    under [application_id], the evaluator's decision, which is "Approved"
    or "Declined" and agrees with the count of criteria met, under
    [result], the generated text under [explanation], and no other key. *)
Theorem process_application_record (now : datetime) application
    (record : gmap string pyval) :
  process_application repr create now application = Ok record ->
  exists (id : pyval) (decision explanation : string)
         (criteria_evaluation : list (string * bool)),
    application !! "_id" = Some id
    /\ evaluate_application now application application
       = Ok (decision, criteria_evaluation)
    /\ (decision = "Approved" /\ (8 <= count_true criteria_evaluation)%nat
        \/ decision = "Declined" /\ (count_true criteria_evaluation < 8)%nat)
    /\ record !! "application_id" = Some id
    /\ record !! "result" = Some (PyStr decision)
    /\ record !! "explanation" = Some (PyStr explanation)
    /\ dom record = {["application_id"; "result"; "explanation"]}.
Proof.
  intros H. apply process_application_inv in H
    as (id & decision & explanation & criteria_evaluation
        & Heval & _ & Hid & ->).
  exists id, decision, explanation, criteria_evaluation.
  split; [exact Hid|]. split; [exact Heval|].
  apply evaluate_application_decision in Heval as [Hd Happ].
  split.
  { destruct (decision_of_labels (rules_passed criteria_evaluation)) as [Hl|Hl];
      unfold Aggregator.decision in Hd; rewrite <- Hd in Hl.
    - left. split; [exact Hl | apply Happ, Hl].
    - right. split; [exact Hl|].
      destruct (le_lt_dec 8 (count_true criteria_evaluation)) as [Hge|Hlt];
        [|exact Hlt].
      apply Happ in Hge. congruence. }
  unfold processed_record. repeat split.
Qed.

(** X12: an application without [_id] makes the processor raise
    [KeyError] whenever the evaluator returns: the decision and the
    explanation have been computed and are lost. *)
Theorem process_application_needs_id (now : datetime) application
    (decision : string) (criteria_evaluation : list (string * bool)) :
  evaluate_application now application application
  = Ok (decision, criteria_evaluation) ->
  application !! "_id" = None ->
  process_application repr create now application = Raise (KeyError "_id").
Proof.
  intros Heval Hid. unfold process_application. rewrite Heval.
  cbn [mbind result_bind].
  destruct (generate_explanation_cases application decision criteria_evaluation)
    as (explanation & -> & _).
  cbn [mbind result_bind]. unfold getitem. rewrite Hid. reflexivity.
Qed.


(** The evaluator returns on well-formed input with a positive income. *)
Lemma well_formed_returns (now : datetime) application
    (json_data : gmap string pyval) :
  well_formed application json_data = true ->
  is_positive_number (gross_income_of json_data) = true ->
  exists r, evaluate_application now application json_data = Ok r.
Proof.
  unfold well_formed, gross_income_of. intros Hwf Hpos.
  rewrite !andb_true_iff in Hwf.
  destruct Hwf as (((((((((Hincome & Hscore) & Hdebt) & Hsector) & Hloans)
                        & Hamount) & Hduration) & Hbankruptcy) & Hdob) & Hresidency).
  unfold evaluate_application.
  destruct (extract_from_files json_data) as [gross_income credit_score].
  cbn [fst snd] in *.
  apply field_is_true in Hdebt as (debt & -> & Hdebt).
  apply field_is_true in Hsector as (sector & -> & _).
  apply field_is_true in Hloans as (loans & -> & Hloans).
  apply field_is_true in Hamount as (amount & -> & Hamount).
  apply field_is_true in Hduration as (duration & -> & Hduration).
  apply field_is_true in Hbankruptcy as (bankruptcy & -> & _).
  apply field_is_true in Hdob as (dob & -> & Hdob).
  apply field_is_true in Hresidency as (residency & -> & _).
  cbn [mbind result_bind].
  destruct (truediv_returns debt gross_income Hdebt Hincome Hpos) as [dti ->].
  destruct (ge_returns credit_score (NInt 670) Hscore) as [credit_ok ->].
  destruct (lt_returns loans (NInt 5) Hloans) as [loans_ok ->].
  destruct (limit_returns gross_income Hincome) as (annual & limit & -> & Hlimit).
  destruct (ge_returns duration (NInt 2) Hduration) as [duration_ok ->].
  cbn [mbind result_bind]. rewrite Hlimit. cbn [mbind result_bind].
  destruct (le_returns amount limit Hamount) as [amount_ok ->].
  cbn [mbind result_bind].
  unfold parses in Hdob. destruct dob; try discriminate Hdob.
  destruct (strptime _) as [birth_date|]; [|discriminate Hdob].
  cbn [mbind result_bind]. eauto.
Qed.

(** With a zero income the evaluator raises. *)
Lemma zero_income_raises (now : datetime) application
    (json_data : gmap string pyval) :
  is_zero_number (gross_income_of json_data) = true ->
  exists e, evaluate_application now application json_data = Raise e.
Proof.
  intros Hzero.
  destruct (evaluate_application now application json_data)
    as [[decision criteria_evaluation]|e] eqn:H; [|eauto].
  apply evaluate_application_steps in H
    as (debt & dti & credit_ok & sector & loans & loans_ok & amount & annual
        & limit & amount_ok & duration & duration_ok & bankruptcy & dob
        & birth_date & residency & (_ & Hdiv & _) & _).
  apply truediv_inv in Hdiv as (_ & _ & Hnz). congruence.
Qed.

(** X13: the endpoint answers 200 only with a processed record: the
    request body is an object whose [response] is an object with an
    [_id], the record carries that [_id], a decision that is "Approved"
    or "Declined", and an explanation.  Every other request is answered
    500 with an error message. *)
Theorem process_entry_status (now : datetime) (request_json : result pyval) :
  (exists (outer entries : list (string * pyval)) (id : pyval)
          (decision explanation : string),
      request_json = Ok (PyDict outer)
      /\ to_dict outer !! "response" = Some (PyDict entries)
      /\ to_dict entries !! "_id" = Some id
      /\ (decision = "Approved" \/ decision = "Declined")
      /\ process_entry repr create exn_str now request_json
         = (ResultBody (processed_record id decision explanation), 200))
  \/ (exists e : exn,
         process_entry repr create exn_str now request_json
         = (ErrorBody (exn_str e), 500)).
Proof.
  unfold process_entry.
  destruct request_json as [body|e]; [|right; eauto].
  cbn [mbind result_bind].
  destruct body as [| | | | |l|outer]; try (right; eexists; reflexivity).
  cbn [subscript]. unfold getitem.
  destruct (to_dict outer !! "response") as [entry_data|] eqn:Hresponse;
    [|right; eexists; reflexivity].
  cbn [mbind result_bind].
  destruct entry_data as [| | | | |l|entries]; try (right; eexists; reflexivity).
  cbn [call_process_application].
  destruct (process_application repr create now (to_dict entries))
    as [record|e] eqn:Hrun; [|right; eauto].
  apply process_application_inv in Hrun
    as (id & decision & explanation & criteria_evaluation
        & Heval & _ & Hid & ->).
  left. exists outer, entries, id, decision, explanation.
  repeat split; try assumption.
  apply evaluate_application_decision in Heval as [-> _].
  apply decision_of_labels.
Qed.

(** X14: a request whose application has a zero or absent monthly gross
    income is answered 500. *)
Theorem process_entry_zero_income (now : datetime)
    (outer entries : list (string * pyval)) :
  to_dict outer !! "response" = Some (PyDict entries) ->
  is_zero_number (gross_income_of (to_dict entries)) = true ->
  exists e : exn,
    process_entry repr create exn_str now (Ok (PyDict outer))
    = (ErrorBody (exn_str e), 500).
Proof.
  intros Hresponse Hzero. unfold process_entry. cbn [mbind result_bind subscript].
  unfold getitem. rewrite Hresponse. cbn [mbind result_bind call_process_application].
  destruct (zero_income_raises now (to_dict entries) (to_dict entries) Hzero)
    as [e He].
  unfold process_application. rewrite He. eauto.
Qed.

(** X15: a failure of the text-generation client costs the request
    nothing but the explanation: a well-formed application with a
    positive income and an [_id] is answered 200, with its decision and
    the fallback text. *)
Theorem process_entry_survives_client_failure (now : datetime)
    (outer entries : list (string * pyval)) (id : pyval) :
  to_dict outer !! "response" = Some (PyDict entries) ->
  well_formed (to_dict entries) (to_dict entries) = true ->
  is_positive_number (gross_income_of (to_dict entries)) = true ->
  to_dict entries !! "_id" = Some id ->
  (forall (model prompt : string) (max_tokens : Z),
      call_failed (create model prompt max_tokens)) ->
  exists decision : string,
    (decision = "Approved" \/ decision = "Declined")
    /\ process_entry repr create exn_str now (Ok (PyDict outer))
       = (ResultBody (processed_record id decision "Explanation not available"),
          200).
Proof.
  intros Hresponse Hwf Hpos Hid Hfail.
  destruct (well_formed_returns now _ _ Hwf Hpos)
    as [[decision criteria_evaluation] Heval].
  exists decision. split.
  { apply evaluate_application_decision in Heval as [-> _].
    apply decision_of_labels. }
  unfold process_entry. cbn [mbind result_bind subscript].
  unfold getitem. rewrite Hresponse. cbn [mbind result_bind call_process_application].
  unfold process_application. rewrite Heval. cbn [mbind result_bind].
  destruct (generate_explanation_cases (to_dict entries) decision
              criteria_evaluation) as (explanation & -> & Hfallback).
  rewrite (Hfallback (Hfail _ _ _)). cbn [mbind result_bind].
  unfold getitem. rewrite Hid. reflexivity.
Qed.

End EndpointFacts.


Lemma process_application_record_witness :
  exists (id : pyval) (decision explanation : string)
         (criteria_evaluation : list (string * bool)),
    sample_application !! "_id" = Some id
    /\ evaluate_application sample_now sample_application sample_application
       = Ok (decision, criteria_evaluation)
    /\ (decision = "Approved" /\ (8 <= count_true criteria_evaluation)%nat
        \/ decision = "Declined" /\ (count_true criteria_evaluation < 8)%nat)
    /\ processed_record (PyStr "65a1f0") "Approved" "Eight of nine are met.."
       !! "application_id" = Some id
    /\ processed_record (PyStr "65a1f0") "Approved" "Eight of nine are met.."
       !! "result" = Some (PyStr decision)
    /\ processed_record (PyStr "65a1f0") "Approved" "Eight of nine are met.."
       !! "explanation" = Some (PyStr explanation)
    /\ dom (processed_record (PyStr "65a1f0") "Approved"
                             "Eight of nine are met..")
       = {["application_id"; "result"; "explanation"]}.
Proof.
  apply (process_application_record sample_repr
           (client_answering "Eight of nine are met.")
           sample_now sample_application).
  vm_compute. reflexivity.
Defined.

Lemma process_application_needs_id_witness :
  process_application sample_repr client_timing_out sample_now
                      application_without_id
  = Raise (KeyError "_id").
Proof.
  apply (process_application_needs_id sample_repr client_timing_out sample_now
           application_without_id "Approved" nine_of_nine);
    vm_compute; reflexivity.
Defined.

Lemma process_entry_zero_income_witness :
  exists e : exn,
    process_entry sample_repr client_timing_out sample_exn_str sample_now
                  (Ok request_zero_income)
    = (ErrorBody (sample_exn_str e), 500).
Proof.
  apply (process_entry_zero_income sample_repr client_timing_out sample_exn_str
           sample_now [("response", PyDict zero_income_entries)]
           zero_income_entries);
    vm_compute; reflexivity.
Defined.

Lemma process_entry_survives_client_failure_witness :
  exists decision : string,
    (decision = "Approved" \/ decision = "Declined")
    /\ process_entry sample_repr client_timing_out sample_exn_str sample_now
                     (Ok sample_request)
       = (ResultBody (processed_record (PyStr "65a1f0") decision
                                       "Explanation not available"),
          200).
Proof.
  apply (process_entry_survives_client_failure sample_repr client_timing_out
           sample_exn_str sample_now [("response", PyDict sample_entries)]
           sample_entries (PyStr "65a1f0"));
    try (vm_compute; reflexivity).
Defined.

(** The same requests, run. *)
Example process_entry_examples :
  process_entry sample_repr (client_answering "Eight of nine are met.")
                sample_exn_str sample_now (Ok sample_request)
  = (ResultBody (processed_record (PyStr "65a1f0") "Approved"
                                  "Eight of nine are met.."), 200)
  /\ process_entry sample_repr client_timing_out sample_exn_str sample_now
                   (Ok request_zero_income)
     = (ErrorBody "division by zero", 500)
  /\ process_entry sample_repr client_timing_out sample_exn_str sample_now
                   (Ok (PyDict []))
     = (ErrorBody "'response'", 500)
  /\ process_entry sample_repr client_timing_out sample_exn_str sample_now
                   (Ok (PyList []))
     = (ErrorBody "error", 500).
Proof. repeat split; vm_compute; reflexivity. Qed.

(** ** Further facts on the evaluator *)

Section VerdictFacts.

Implicit Types application json_data : gmap string pyval.

Lemma count_true_le_length (criteria_evaluation : list (string * bool)) :
  (count_true criteria_evaluation <= length criteria_evaluation)%nat.
Proof.
  unfold count_true. induction criteria_evaluation as [|[k []] rest IH];
    cbn [List.filter snd length]; lia.
Qed.

(** X16: the evaluator approves exactly when at most one of the nine
    criteria of the mapping it returns is unmet, and declines exactly
    when two or more are. *)
Theorem approved_iff_at_most_one_unmet (now : datetime) application json_data
    (decision : string) (criteria_evaluation : list (string * bool)) :
  evaluate_application now application json_data
  = Ok (decision, criteria_evaluation) ->
  length criteria_evaluation = 9%nat
  /\ (decision = "Approved"
      <-> (length criteria_evaluation - count_true criteria_evaluation <= 1)%nat)
  /\ (decision = "Declined"
      <-> (2 <= length criteria_evaluation - count_true criteria_evaluation)%nat).
Proof.
  intros H.
  pose proof (evaluate_application_labels _ _ _ _ _ H) as Hlabels.
  apply (f_equal (@length string)) in Hlabels. rewrite length_map in Hlabels.
  cbn in Hlabels.
  apply evaluate_application_decision in H as [Hd Happ].
  pose proof (count_true_le_length criteria_evaluation) as Hle.
  split; [exact Hlabels|]. split.
  - rewrite Happ. lia.
  - unfold Aggregator.decision, decision_of in Hd. rewrite rules_passed_count in Hd.
    destruct (Z.leb_spec 8 (Z.of_nat (count_true criteria_evaluation)));
      subst decision; split; intros; try discriminate; try reflexivity; lia.
Qed.

(** X17: an income that is present but not a number (a string, [null],
    a list) makes the evaluator raise [TypeError] at the division, and
    so does, once the division has returned, a credit score that is
    not a number: text is not read as a number, and [null] is not read
    as [0]. *)
Theorem text_in_place_of_number_raises (now : datetime) application json_data
    (debt : pyval) :
  application !! "Total Monthly Debt Obligations" = Some debt ->
  (is_number (gross_income_of json_data) = false ->
   evaluate_application now application json_data = Raise TypeError)
  /\ (forall dti : spec_float,
         truediv debt (gross_income_of json_data) = Ok dti ->
         is_number (snd (extract_from_files json_data)) = false ->
         evaluate_application now application json_data = Raise TypeError).
Proof.
  intros Hdebt. unfold gross_income_of, evaluate_application.
  destruct (extract_from_files json_data) as [gross_income credit_score].
  cbn [fst snd]. rewrite (getitem_lookup _ _ _ Hdebt). cbn [mbind result_bind].
  split.
  - unfold is_number, truediv. intros Hincome.
    destruct (as_number gross_income); [discriminate|].
    destruct (as_number debt) as [[a|x]|]; reflexivity.
  - intros dti -> Hscore. cbn [mbind result_bind].
    unfold is_number in Hscore. unfold ge.
    destruct (as_number credit_score); [discriminate|]. reflexivity.
Qed.

End VerdictFacts.

Lemma approved_iff_at_most_one_unmet_witness :
  length all_but_sector = 9%nat
  /\ ("Approved" = "Approved"
      <-> (length all_but_sector - count_true all_but_sector <= 1)%nat)
  /\ ("Approved" = "Declined"
      <-> (2 <= length all_but_sector - count_true all_but_sector)%nat).
Proof.
  apply (approved_iff_at_most_one_unmet
           sample_now application_retail application_retail).
  vm_compute. reflexivity.
Defined.

Lemma text_in_place_of_number_raises_witness :
  evaluate_application sample_now application_text_score application_text_score
  = Raise TypeError.
Proof.
  refine (proj2 (text_in_place_of_number_raises
                   sample_now application_text_score application_text_score
                   (PyInt 1500) _)
                (S754_finite false 5404319552844595 (-54)) _ _);
    vm_compute; reflexivity.
Defined.

(** ** Repeated runs of the processor *)

Section RepeatFacts.

Variable repr : gmap string pyval -> string.

Implicit Types application : gmap string pyval.

(** C8, amended: two runs of [process_application] on the same
    application, with clocks showing the same date (the same year is
    enough) and clients giving the same response to the same request, end
    alike, in the same record or in the same exception; and when the
    application is well formed, with a positive income and an [_id], both
    return one and the same record, made of that [_id], the evaluator's
    decision and the generated explanation. *)
Theorem C8_process_application_repeatable
    (create1 create2 : completions_api) (now1 now2 : datetime) application :
  year now1 = year now2 ->
  (forall (model prompt : string) (max_tokens : Z),
      create1 model prompt max_tokens = create2 model prompt max_tokens) ->
  process_application repr create1 now1 application
  = process_application repr create2 now2 application
  /\ (forall id : pyval,
         well_formed application application = true ->
         is_positive_number (gross_income_of application) = true ->
         application !! "_id" = Some id ->
         exists (decision explanation : string)
                (criteria_evaluation : list (string * bool)),
           evaluate_application now1 application application
           = Ok (decision, criteria_evaluation)
           /\ (decision = "Approved" \/ decision = "Declined")
           /\ generate_explanation repr create1 application decision
                                   criteria_evaluation
              = Ok explanation
           /\ process_application repr create1 now1 application
              = Ok (processed_record id decision explanation)
           /\ process_application repr create2 now2 application
              = Ok (processed_record id decision explanation)).
Proof.
  intros Hyear Hcreate.
  pose proof (process_application_ext repr create1 create2 now1 now2
                application Hyear Hcreate) as Hsame.
  split; [exact Hsame|].
  intros id Hwf Hpos Hid.
  destruct (well_formed_returns now1 _ _ Hwf Hpos)
    as [[decision criteria_evaluation] Heval].
  destruct (generate_explanation_cases repr create1 application decision
              criteria_evaluation) as (explanation & Hgen & _).
  exists decision, explanation, criteria_evaluation.
  assert (Hrun : process_application repr create1 now1 application
                 = Ok (processed_record id decision explanation)).
  { unfold process_application. rewrite Heval. cbn [mbind result_bind].
    rewrite Hgen. cbn [mbind result_bind]. unfold getitem. rewrite Hid.
    reflexivity. }
  split; [exact Heval|]. split.
  { apply evaluate_application_decision in Heval as [-> _].
    apply decision_of_labels. }
  split; [exact Hgen|]. split; [exact Hrun|].
  rewrite <- Hsame. exact Hrun.
Qed.

End RepeatFacts.

Lemma C8_process_application_repeatable_witness :
  process_application sample_repr (client_answering "Eight of nine are met.")
                      sample_now sample_application
  = Ok (processed_record (PyStr "65a1f0") "Approved" "Eight of nine are met..")
  /\ process_application sample_repr (client_answering "Eight of nine are met.")
                         sample_later sample_application
     = Ok (processed_record (PyStr "65a1f0") "Approved"
                            "Eight of nine are met..").
Proof.
  destruct (C8_process_application_repeatable sample_repr
              (client_answering "Eight of nine are met.")
              (client_answering "Eight of nine are met.")
              sample_now sample_later sample_application
              eq_refl (fun _ _ _ => eq_refl)) as [_ Hrecord].
  destruct (Hrecord (PyStr "65a1f0") eq_refl eq_refl eq_refl)
    as (decision & explanation & criteria_evaluation
        & Heval & _ & Hgen & Hrun1 & Hrun2).
  vm_compute in Heval. injection Heval as <- <-.
  vm_compute in Hgen. injection Hgen as <-.
  split; assumption.
Defined.

(** C8 as first stated fails: the income is positive and neither run
    produces a record; both raise, the date of birth being unreadable. *)
Lemma C8_positive_income_without_record :
  is_positive_number (gross_income_of application_iso_birth) = true
  /\ process_application sample_repr (client_answering "Eight of nine are met.")
                         sample_now application_iso_birth
     = Raise ValueError
  /\ process_application sample_repr (client_answering "Eight of nine are met.")
                         sample_later application_iso_birth
     = Raise ValueError.
Proof. repeat split; vm_compute; reflexivity. Qed.

(** A key given twice in a request counts with its last value. *)
Example process_entry_repeated_key :
  process_entry sample_repr client_timing_out sample_exn_str sample_now
                (Ok request_income_zero_then_5000)
  = (ResultBody (processed_record (PyStr "65a1f0") "Approved"
                                  "Explanation not available"), 200)
  /\ process_entry sample_repr client_timing_out sample_exn_str sample_now
                   (Ok request_income_5000_then_zero)
     = (ErrorBody "division by zero", 500).
Proof. split; vm_compute; reflexivity. Qed.
